(** * mentorAI-Scripts: the document upload pipeline of [AddDatasets/addFile.py]

    A shallow embedding of [addFile.py] (validation, credential loading,
    request construction, response classification, exit codes) together
    with the properties its specification states about it.

    Conventions of the model.
    - A Python [str] is a Rocq [string], one [ascii] per character (code
      points below 256); [len] is [String.length]. A file read in text mode
      gives one character per byte: the encoding is not modelled.
    - A Python [int] is a [Z]; a file size ([st_size]) is an [N].
    - Exceptions are the constructors of [exn]; a computation is a value of
      [M A]: its outcome (a result or a raised exception) and the events it
      emitted, in order (log records, standard error, file system calls,
      HTTP requests).
    - The file system and the HTTP server are the two fields of a [world];
      neither is changed by the script (the log file that the logging module
      writes is seen as log records only).
    - A log record is its level and its message; the traceback that
      [exc_info=True] adds to a record is left out.
    - [pathlib] is modelled in its POSIX flavour, [Path.suffix] as in Python
      3.13 and before; [requests] as in 2.27 and later.
    - [argparse] is modelled from the values of the flags on: the conversion
      of [--timeout] by [int], [--help] and unknown flags are left out. *)

From Stdlib Require Import ZArith NArith Ascii String List Lia Bool.
From stdpp Require Import base option list strings gmap pretty.

Local Open Scope Z_scope.
Set Warnings "-register-all".

(** ** Python strings *)

Module Py.

Definition ord (c : ascii) : N := N_of_ascii c.

(** [str.isspace] on one character (code points below 256). *)
Definition isspace (c : ascii) : bool :=
  let n := ord c in
  ((9 <=? n) && (n <=? 13) || (28 <=? n) && (n <=? 32)
   || (n =? 133) || (n =? 160))%N.

Fixpoint lstrip (s : string) : string :=
  match s with
  | EmptyString => EmptyString
  | String c s' => if isspace c then lstrip s' else s
  end.

Fixpoint rstrip (s : string) : string :=
  match s with
  | EmptyString => EmptyString
  | String c s' =>
      match rstrip s' with
      | EmptyString => if isspace c then EmptyString else String c EmptyString
      | r => String c r
      end
  end.

(** [s.strip()] *)
Definition strip (s : string) : string := rstrip (lstrip s).

Definition LF : ascii := "010"%char.
Definition CR : ascii := "013"%char.

(** [f.readline()] on a file opened in text mode at its start: the first
    line with its terminator; universal newlines turn a carriage return
    (alone or followed by a line feed) into a line feed. *)
Fixpoint readline (s : string) : string :=
  match s with
  | EmptyString => EmptyString
  | String c s' =>
      if decide (c = LF) then String LF EmptyString
      else if decide (c = CR) then String LF EmptyString
      else String c (readline s')
  end.

(** [s.count(c)] for a one-character [c]. *)
Fixpoint count (c : ascii) (s : string) : nat :=
  match s with
  | EmptyString => 0%nat
  | String d s' => ((if decide (d = c) then 1 else 0) + count c s')%nat
  end.

Definition lower_char (c : ascii) : ascii :=
  let n := ord c in
  if ((65 <=? n) && (n <=? 90)
      || (192 <=? n) && (n <=? 222) && negb (n =? 215))%N
  then ascii_of_N (n + 32) else c.

(** [s.lower()] *)
Fixpoint lower (s : string) : string :=
  match s with
  | EmptyString => EmptyString
  | String c s' => String (lower_char c) (lower s')
  end.

(** [c * n] for a one-character string [c]. *)
Fixpoint times (c : ascii) (n : nat) : string :=
  match n with
  | O => EmptyString
  | S n' => String c (times c n')
  end.

(** [sep.join(l)] *)
Fixpoint join (sep : string) (l : list string) : string :=
  match l with
  | [] => ""
  | [x] => x
  | x :: l' => x +:+ sep +:+ join sep l'
  end.

(** [s.split(c)] for a one-character separator. *)
Fixpoint split (c : ascii) (s : string) : list string :=
  match s with
  | EmptyString => [EmptyString]
  | String d s' =>
      if decide (d = c) then EmptyString :: split c s'
      else match split c s' with
           | [] => [String d EmptyString]
           | x :: l => String d x :: l
           end
  end.

(** [s.rfind('.')]: the index of the last dot, if any. *)
Fixpoint rfind_dot (s : string) : option nat :=
  match s with
  | EmptyString => None
  | String c s' =>
      match rfind_dot s' with
      | Some i => Some (S i)
      | None => if decide (c = "."%char) then Some 0%nat else None
      end
  end.

Fixpoint drop (n : nat) (s : string) : string :=
  match n, s with
  | O, _ => s
  | S n', String _ s' => drop n' s'
  | S _, EmptyString => EmptyString
  end.

(** [str(n)] for an [int]. *)
Definition str_int (n : Z) : string := pretty n.

Definition hex_digit (n : N) : ascii :=
  ascii_of_N (if (n <? 10)%N then 48 + n else 87 + n).

(** [str.isprintable] on one character (code points below 256). *)
Definition isprintable (c : ascii) : bool :=
  let n := ord c in
  ((32 <=? n) && (n <? 127) || (161 <=? n) && negb (n =? 173))%N.

Definition SQ : ascii := "'"%char.
Definition DQ : ascii := "034"%char.
Definition BS : ascii := "\"%char.

Fixpoint mem (c : ascii) (s : string) : bool :=
  match s with
  | EmptyString => false
  | String d s' => if decide (d = c) then true else mem c s'
  end.

Fixpoint repr_chars (q : ascii) (s : string) : string :=
  match s with
  | EmptyString => EmptyString
  | String c s' =>
      let rest := repr_chars q s' in
      if decide (c = BS) then String BS (String BS rest)
      else if decide (c = q) then String BS (String q rest)
      else if decide (c = LF) then String BS (String "n" rest)
      else if decide (c = CR) then String BS (String "r" rest)
      else if decide (c = "009"%char) then String BS (String "t" rest)
      else if isprintable c then String c rest
      else String BS (String "x" (String (hex_digit (ord c / 16))
                                    (String (hex_digit (ord c mod 16)) rest)))
  end.

(** [repr(s)] for a [str]: single quotes, unless the string holds a single
    quote and no double quote. *)
Definition repr_str (s : string) : string :=
  let q := if mem SQ s && negb (mem DQ s) then DQ else SQ in
  String q (repr_chars q s) +:+ String q EmptyString.

(** Round [n / 2^k] to the nearest integer, ties to even. *)
Definition round_half_even (n : Z) (k : Z) : Z :=
  let q := Z.shiftr n k in
  let r := Z.land n (Z.ones k) in
  let half := Z.shiftl 1 (k - 1) in
  if (half <? r) || ((r =? half) && Z.odd q) then q + 1 else q.

(** The integer [m] with [m * 2^e] the double nearest to [n >= 0]. *)
Definition to_double (n : Z) : Z * Z :=
  let e := Z.log2 n + 1 - 53 in
  if e <=? 0 then (n, 0) else (round_half_even n e, e).

Definition two_digits (n : Z) : string :=
  (if n <? 10 then "0" else "") +:+ str_int n.

(** [f"{n / 2**k:.2f}"] for an [int] [n >= 0] and [k >= 1]: true division
    rounds the quotient to a double, the format rounds the double to two
    decimals; both round to nearest, ties to even. *)
Definition fmt_div_2f (n : Z) (k : Z) : string :=
  let '(m, e) := to_double n in
  let h := if k <=? e then 100 * m * 2 ^ (e - k)
           else round_half_even (100 * m) (k - e) in
  str_int (h / 100) +:+ "." +:+ two_digits (h mod 100).

End Py.


(** ** [pathlib.Path], POSIX flavour *)

Module pathlib.

(** A parsed path: the root ([""], ["/"] or ["//"]) and the components. *)
Record Path : Type := mkPath { root : string; parts : list string }.

Global Instance Path_eq_dec : EqDecision Path.
Proof. solve_decision. Defined.

Fixpoint lstrip_sep (s : string) : string :=
  match s with
  | String "/" s' => lstrip_sep s'
  | _ => s
  end.

Definition keep_part (x : string) : bool :=
  negb (bool_decide (x = "")) && negb (bool_decide (x = ".")).

(** [Path(s)] *)
Definition of_str (s : string) : Path :=
  let rel := lstrip_sep s in
  let slashes := (String.length s - String.length rel)%nat in
  {| root := match slashes with
             | O => ""
             | 2%nat => "//"
             | _ => "/"
             end;
     parts := filter (λ x, keep_part x = true) (Py.split "/" rel) |}.

(** [str(p)] *)
Definition to_str (p : Path) : string :=
  match root p, parts p with
  | EmptyString, [] => "."
  | r, l => r +:+ Py.join "/" l
  end.

(** [p.name] *)
Definition name (p : Path) : string := List.last (parts p) "".

(** [p.suffix] *)
Definition suffix (p : Path) : string :=
  let n := name p in
  match Py.rfind_dot n with
  | Some i =>
      if decide (0 < i ∧ i < String.length n - 1)%nat then Py.drop i n else ""
  | None => ""
  end.

(** [p.is_absolute()] *)
Definition is_absolute (p : Path) : bool := negb (bool_decide (root p = "")).

End pathlib.

Import pathlib.


(** ** Exceptions *)

(** The classes of [requests.exceptions] (requests 2.27 and later, where the
    error of [Response.json] is a [RequestException]). *)
Inductive requests_exc : Type :=
  | RequestException | HTTPError | InvalidJSONError | JSONDecodeError
  | ConnectionError | ProxyError | SSLError
  | Timeout | ConnectTimeout | ReadTimeout
  | TooManyRedirects | InvalidURL | MissingSchema | InvalidSchema
  | ChunkedEncodingError | ContentDecodingError | RetryError.

(** [issubclass(c, requests.exceptions.Timeout)] *)
Definition is_Timeout (c : requests_exc) : bool :=
  match c with Timeout | ConnectTimeout | ReadTimeout => true | _ => false end.

(** [issubclass(c, requests.exceptions.ConnectionError)] *)
Definition is_ConnectionError (c : requests_exc) : bool :=
  match c with
  | ConnectionError | ProxyError | SSLError | ConnectTimeout => true
  | _ => false
  end.

(** The exceptions the script raises or meets; each carries [str(e)]. *)
Inductive exn : Type :=
  | ConfigurationError (msg : string)
  | DocumentUploadError (msg : string)
  | RequestsError (cls : requests_exc) (msg : string)
  | IOError (msg : string)
  | AttributeError (msg : string)
  | OtherException (cls : string) (msg : string)
  | KeyboardInterrupt
  | SystemExit (code : Z).

(** [isinstance(e, Exception)]: all but the two [BaseException]s. *)
Definition is_Exception (e : exn) : bool :=
  match e with KeyboardInterrupt | SystemExit _ => false | _ => true end.

(** [str(e)] *)
Definition str_exn (e : exn) : string :=
  match e with
  | ConfigurationError m | DocumentUploadError m | RequestsError _ m
  | IOError m | AttributeError m | OtherException _ m => m
  | KeyboardInterrupt => ""
  | SystemExit c => Py.str_int c
  end.

(** ** JSON values, as [Response.json] returns them *)

Inductive json : Type :=
  | JNull
  | JBool (b : bool)
  | JInt (n : Z)
  | JFloat (repr : string)   (* a float, identified by its [repr] *)
  | JStr (s : string)
  | JArr (l : list json)
  | JObj (items : list (string * json)).   (* a dict, in insertion order *)

(** [repr(v)] *)
Fixpoint py_repr (v : json) : string :=
  match v with
  | JNull => "None"
  | JBool true => "True"
  | JBool false => "False"
  | JInt n => Py.str_int n
  | JFloat r => r
  | JStr s => Py.repr_str s
  | JArr l => "[" +:+ Py.join ", " (map py_repr l) +:+ "]"
  | JObj items =>
      "{" +:+ Py.join ", "
                (map (λ kv, Py.repr_str (fst kv) +:+ ": " +:+ py_repr (snd kv)) items)
          +:+ "}"
  end.

(** [str(v)], as an f-string formats it. *)
Definition py_str (v : json) : string :=
  match v with JStr s => s | _ => py_repr v end.

(** The name of the Python type of a value, for error messages. *)
Definition type_name (v : json) : string :=
  match v with
  | JNull => "NoneType" | JBool _ => "bool" | JInt _ => "int"
  | JFloat _ => "float" | JStr _ => "str" | JArr _ => "list" | JObj _ => "dict"
  end.

Fixpoint assoc (k : string) (items : list (string * json)) : option json :=
  match items with
  | [] => None
  | (k', v) :: rest => if decide (k' = k) then Some v else assoc k rest
  end.

(** ** HTTP requests and responses *)

(** The arguments of [requests.post]. A file part is
    [(filename, byte stream, MIME type)]. *)
Record Request : Type := mkRequest {
  url : string;
  headers : gmap string string;
  files : gmap string (string * string * string);
  data : gmap string string;
  timeout : Z
}.

Inductive json_result : Type :=
  | JsonOk (v : json)
  | JsonDecodeError (msg : string).

(** A [requests.Response]: its status, its body as text, and what its
    [json()] method gives. *)
Record Response : Type := mkResponse {
  status_code : Z;
  text : string;
  body_json : json_result
}.

Inductive post_outcome : Type :=
  | Responded (r : Response)
  | PostRaises (e : exn).

(** ** The world: file system and server *)

Inductive file_kind : Type := Regular | Directory | Special.

Global Instance file_kind_eq_dec : EqDecision file_kind.
Proof. solve_decision. Defined.

Record node : Type := mkNode {
  kind : file_kind;
  readable : bool;       (* permission to read, [os.R_OK] *)
  st_size : N;
  content : string
}.

Record world : Type := mkWorld {
  fs : string → option node;            (* by path, as given to the system *)
  http : Request → post_outcome
}.

(** ** Events and the computation monad *)

Inductive level : Type := DEBUG | INFO | WARNING | ERROR.

Global Instance level_eq_dec : EqDecision level.
Proof. solve_decision. Defined.

Inductive fs_call : Type := Exists | IsFile | Access | Stat | Open.

Inductive event : Type :=
  | EvLog (l : level) (msg : string)
  | EvStderr (msg : string)
  | EvFs (c : fs_call) (path : string)
  | EvPost (r : Request).

Inductive outcome (A : Type) : Type :=
  | Ret (a : A)
  | Raise (e : exn).
Arguments Ret {A} a.
Arguments Raise {A} e.

Definition M (A : Type) : Type := outcome A * list event.

Definition ret {A} (a : A) : M A := (Ret a, []).
Definition raise {A} (e : exn) : M A := (Raise e, []).
Definition emit (ev : event) : M unit := (Ret tt, [ev]).

Definition bind {A B} (m : M A) (k : A → M B) : M B :=
  match m with
  | (Ret a, t) => let '(o, t') := k a in (o, t ++ t')
  | (Raise e, t) => (Raise e, t)
  end.

(** [try: m except: h] with [h] deciding which exceptions it handles. *)
Definition try_except {A} (m : M A) (h : exn → M A) : M A :=
  match m with
  | (Raise e, t) => let '(o, t') := h e in (o, t ++ t')
  | r => r
  end.

Declare Scope py_scope.
Delimit Scope py_scope with py.
Notation "x <- m ;; k" := (bind m (λ x, k))
  (at level 100, m at next level, right associativity) : py_scope.
Notation "m ;;; k" := (bind m (λ _, k))
  (at level 100, right associativity) : py_scope.
Local Open Scope py_scope.

Definition result_of {A} (m : M A) : outcome A := fst m.
Definition trace_of {A} (m : M A) : list event := snd m.

(** The log records of a trace, and the requests sent. *)
Definition log_lines (t : list event) : list (level * string) :=
  omap (λ ev, match ev with EvLog l m => Some (l, m) | _ => None end) t.

Definition posts (t : list event) : list Request :=
  omap (λ ev, match ev with EvPost r => Some r | _ => None end) t.

Definition fs_calls (t : list event) : list (fs_call * string) :=
  omap (λ ev, match ev with EvFs c p => Some (c, p) | _ => None end) t.

Definition logger (l : level) (msg : string) : M unit := emit (EvLog l msg).

(** ** File system calls *)

Section FileSystem.
Context (w : world).

Definition lookup_path (p : Path) : option node := fs w (to_str p).

(** [p.exists()] *)
Definition Path_exists (p : Path) : M bool :=
  emit (EvFs Exists (to_str p)) ;;;
  ret (bool_decide (is_Some (lookup_path p))).

(** [p.is_file()] *)
Definition Path_is_file (p : Path) : M bool :=
  emit (EvFs IsFile (to_str p)) ;;;
  ret (match lookup_path p with
       | Some nd => bool_decide (kind nd = Regular)
       | None => false
       end).

(** [os.access(p, os.R_OK)] *)
Definition os_access_R_OK (p : Path) : M bool :=
  emit (EvFs Access (to_str p)) ;;;
  ret (match lookup_path p with
       | Some nd => readable nd
       | None => false
       end).

Definition errno_msg (what : string) (p : Path) : string :=
  what +:+ ": " +:+ Py.repr_str (to_str p).

(** [p.stat().st_size] *)
Definition Path_stat_st_size (p : Path) : M Z :=
  emit (EvFs Stat (to_str p)) ;;;
  match lookup_path p with
  | Some nd => ret (Z.of_N (st_size nd))
  | None => raise (IOError (errno_msg "[Errno 2] No such file or directory" p))
  end.

(** [open(p)]: the content of the file, or the [OSError] of the system
    (missing, no permission, a directory). *)
Definition open_ (p : Path) : M string :=
  emit (EvFs Open (to_str p)) ;;;
  match lookup_path p with
  | None => raise (IOError (errno_msg "[Errno 2] No such file or directory" p))
  | Some nd =>
      if negb (readable nd)
      then raise (IOError (errno_msg "[Errno 13] Permission denied" p))
      else if bool_decide (kind nd = Directory)
      then raise (IOError (errno_msg "[Errno 21] Is a directory" p))
      else ret (content nd)
  end.

(** [requests.post(...)] *)
Definition requests_post (r : Request) : M Response :=
  emit (EvPost r) ;;;
  match http w r with
  | Responded resp => ret resp
  | PostRaises e => raise e
  end.

End FileSystem.

(** [response.json()] *)
Definition Response_json (r : Response) : M json :=
  match body_json r with
  | JsonOk v => ret v
  | JsonDecodeError msg => raise (RequestsError JSONDecodeError msg)
  end.

(** [v.get(k, dflt)]: a method of dicts only. *)
Definition get (v : json) (k : string) (dflt : json) : M json :=
  match v with
  | JObj items => ret (default dflt (assoc k items))
  | _ => raise (AttributeError
                  ("'" +:+ type_name v +:+ "' object has no attribute 'get'"))
  end.

(** ** [addFile.py] *)

Definition NL : string := String Py.LF "".

Section AddFile.
Context (w : world).

Definition max_size : Z := 100 * 1024 * 1024.

Definition validate_file_path (file_path : string) : M Path :=
  let path := of_str file_path in
  ex <- Path_exists w path ;;
  if negb ex then raise (ConfigurationError ("File not found: " +:+ file_path)) else
  isf <- Path_is_file w path ;;
  if negb isf then raise (ConfigurationError ("Path is not a file: " +:+ file_path)) else
  acc <- os_access_R_OK w path ;;
  if negb acc then raise (ConfigurationError ("File is not readable: " +:+ file_path)) else
  file_size <- Path_stat_st_size w path ;;
  if max_size <? file_size
  then raise (ConfigurationError
                ("File too large: " +:+ Py.fmt_div_2f file_size 20 +:+ "MB (max: 100MB)"))
  else
  if file_size =? 0
  then raise (ConfigurationError ("File is empty: " +:+ file_path))
  else
  logger INFO ("File validated: " +:+ file_path +:+ " ("
               +:+ Py.fmt_div_2f file_size 10 +:+ "KB)") ;;;
  ret path.

Definition load_api_key (credential_file : string) : M string :=
  let cred_path := of_str credential_file in
  ex <- Path_exists w cred_path ;;
  if negb ex
  then raise (ConfigurationError
                ("Credentials file not found: " +:+ credential_file +:+ NL +:+
                 "Please create this file with your API key on the first line."))
  else
  try_except
    (f <- open_ w cred_path ;;
     let api_key := Py.strip (Py.readline f) in
     if bool_decide (api_key = "")
     then raise (ConfigurationError "API key is empty in credentials file")
     else
     if (String.length api_key <? 10)%nat
     then raise (ConfigurationError "API key appears to be invalid (too short)")
     else
     logger INFO "API key loaded successfully" ;;;
     ret api_key)
    (λ e, match e with
          | IOError m =>
              raise (ConfigurationError ("Error reading credentials file: " +:+ m))
          | _ => raise e
          end).

Definition validate_configuration (org_id user_id mentor_id : string) : M unit :=
  if bool_decide (org_id = "")
  then raise (ConfigurationError "Organization ID must be a non-empty string") else
  if bool_decide (user_id = "")
  then raise (ConfigurationError "User ID must be a non-empty string") else
  if bool_decide (mentor_id = "")
  then raise (ConfigurationError "Mentor ID must be a non-empty string") else
  (if negb (String.length mentor_id =? 36)%nat || negb (Py.count "-" mentor_id =? 4)%nat
   then logger WARNING
          ("Mentor ID format looks unusual: " +:+ mentor_id +:+ NL +:+
           "Expected UUID format (e.g., 25223e76-fc94-4cc2-aec1-f9fb51f0c2bf)")
   else ret tt) ;;;
  logger INFO ("Configuration validated - Org: " +:+ org_id +:+ ", User: " +:+ user_id).

(** The [mime_types] dict of [upload_document]. *)
Definition mime_types : gmap string string :=
  {[ ".pdf" := "application/pdf";
     ".txt" := "text/plain";
     ".doc" := "application/msword";
     ".docx" := "application/vnd.openxmlformats-officedocument.wordprocessingml.document" ]}.

Definition upload_document (org_id user_id mentor_id : string) (file_path : Path)
    (api_key base_url : string) (timeout : Z) : M json :=
  let url := base_url +:+ "/api/ai-index/orgs/" +:+ org_id +:+ "/users/" +:+ user_id
             +:+ "/documents/train/" in
  let headers : gmap string string := {[ "Authorization" := "Api-Token " +:+ api_key ]} in
  let file_extension := Py.lower (suffix file_path) in
  let mime_type := default "application/octet-stream" (mime_types !! file_extension) in
  (if bool_decide (mime_type = "application/octet-stream")
   then logger WARNING ("Unknown file type: " +:+ file_extension
                        +:+ ", using generic MIME type")
   else ret tt) ;;;
  let doc_type := "file" in
  logger INFO ("Uploading document: " +:+ name file_path) ;;;
  logger INFO ("Target URL: " +:+ url) ;;;
  logger INFO ("Document type: " +:+ doc_type +:+ ", MIME type: " +:+ mime_type) ;;;
  try_except
    (f <- open_ w file_path ;;
     let files : gmap string (string * string * string) :=
       {[ "file" := (name file_path, f, mime_type) ]} in
     let data : gmap string string :=
       {[ "pathway" := mentor_id; "type" := doc_type; "name" := name file_path ]} in
     response <- requests_post w (mkRequest url headers files data timeout) ;;
     if bool_decide (status_code response = 200) || bool_decide (status_code response = 201)
     then
       result <- Response_json response ;;
       logger INFO "Upload successful!" ;;;
       document_id <- get result "document_id" (JStr "N/A") ;;
       logger INFO ("Document ID: " +:+ py_str document_id) ;;;
       ret result
     else
       let error_msg := "Upload failed with status " +:+ Py.str_int (status_code response) in
       error_msg <- try_except
                      (error_detail <- Response_json response ;;
                       ret (error_msg +:+ NL +:+ "Details: " +:+ py_repr error_detail))
                      (λ _, ret (error_msg +:+ NL +:+ "Response: " +:+ text response)) ;;
       logger ERROR error_msg ;;;
       raise (DocumentUploadError error_msg))
    (λ e, match e with
          | RequestsError c m =>
              if is_Timeout c
              then raise (DocumentUploadError
                     ("Upload timed out after " +:+ Py.str_int timeout +:+ " seconds. "
                      +:+ "The file may be too large or the server is slow to respond."))
              else if is_ConnectionError c
              then raise (DocumentUploadError ("Connection error: " +:+ m))
              else raise (DocumentUploadError ("Request failed: " +:+ m))
          | _ => raise e
          end).

End AddFile.

(** ** The command line *)

Module argparse.

(** What the command line gives for each flag ([None]: flag absent); the
    value of [--timeout] is already converted by [type=int]. *)
Record argv : Type := mkArgv {
  o : option string;
  u : option string;
  m : option string;
  f : option string;
  c : option string;
  b : option string;
  t : option Z;
  v : bool
}.

(** The [argparse.Namespace] that [parse_arguments] returns. *)
Record Namespace : Type := mkNamespace {
  org_id : string;
  user_id : string;
  mentor_id : string;
  file : string;
  credentials : string;
  base_url : string;
  timeout : Z;
  verbose : bool
}.

(** [parser.error(msg)]: usage and message on standard error, exit status 2. *)
Definition error {A} (msg : string) : M A :=
  emit (EvStderr msg) ;;; raise (SystemExit 2).

Definition missing (flag : string) (x : option string) : list string :=
  match x with None => [flag] | Some _ => [] end.

(** [parser.parse_args()]: defaults filled in, required flags checked. *)
Definition parse_args (a : argv) : M Namespace :=
  match u a, m a, f a with
  | Some user, Some mentor, Some file_ =>
      ret {| org_id := default "syracuse" (o a);
             user_id := user;
             mentor_id := mentor;
             file := file_;
             credentials := default "api_credentials.txt" (c a);
             base_url := default "https://base.manager.ai.syr.edu" (b a);
             timeout := default 300 (t a);
             verbose := v a |}
  | _, _, _ =>
      error ("the following arguments are required: " +:+
             Py.join ", " (missing "-u/--user-id" (u a) ++ missing "-m/--mentor-id" (m a)
                           ++ missing "-f/--file" (f a)))
  end.

End argparse.

Definition parse_arguments (a : argparse.argv) : M argparse.Namespace :=
  args <- argparse.parse_args a ;;
  if argparse.timeout args <? 1
  then argparse.error "Timeout must be at least 1 second"
  else ret args.

Section Main.
Context (w : world).

(** The body of the [try] statement of [main]. *)
Definition main_try (args : argparse.Namespace) : M Z :=
  validate_configuration (argparse.org_id args) (argparse.user_id args)
                         (argparse.mentor_id args) ;;;
  api_key <- load_api_key w (argparse.credentials args) ;;
  validated_path <- validate_file_path w (argparse.file args) ;;
  result <- upload_document w (argparse.org_id args) (argparse.user_id args)
              (argparse.mentor_id args) validated_path api_key
              (argparse.base_url args) (argparse.timeout args) ;;
  logger INFO (Py.times "=" 60) ;;;
  logger INFO "Script completed successfully!" ;;;
  logger INFO (Py.times "=" 60) ;;;
  ret 0.

(** The [except] clauses of [main], in their order. The last one is
    [except Exception], which lets [SystemExit] through. *)
Definition main_except (e : exn) : M Z :=
  match e with
  | ConfigurationError _ =>
      logger ERROR ("Configuration Error: " +:+ str_exn e) ;;;
      logger ERROR "Please check your settings and try again." ;;;
      ret 1
  | DocumentUploadError _ =>
      logger ERROR ("Upload Error: " +:+ str_exn e) ;;;
      ret 1
  | KeyboardInterrupt =>
      logger WARNING (NL +:+ "Script interrupted by user") ;;;
      ret 130
  | _ =>
      if is_Exception e
      then logger ERROR ("Unexpected error: " +:+ str_exn e) ;;; ret 1
      else raise e
  end.

Definition main (a : argparse.argv) : M Z :=
  args <- parse_arguments a ;;
  (if argparse.verbose args then logger DEBUG "Verbose logging enabled" else ret tt) ;;;
  logger INFO (Py.times "=" 60) ;;;
  logger INFO "Document Upload Script Started" ;;;
  logger INFO (Py.times "=" 60) ;;;
  logger INFO ("Organization: " +:+ argparse.org_id args) ;;;
  logger INFO ("User: " +:+ argparse.user_id args) ;;;
  logger INFO ("Mentor ID: " +:+ argparse.mentor_id args) ;;;
  logger INFO ("File: " +:+ argparse.file args) ;;;
  logger INFO ("Base URL: " +:+ argparse.base_url args) ;;;
  logger INFO ("Timeout: " +:+ Py.str_int (argparse.timeout args) +:+ "s") ;;;
  try_except (main_try args) main_except.

End Main.

(** [sys.exit(main())]: the exit status of the process. [SystemExit] carries
    its status; any other exception that leaves [main] ends the process with
    a traceback and status 1. *)
Definition exit_status (m : M Z) : Z :=
  match result_of m with
  | Ret n => n
  | Raise (SystemExit n) => n
  | Raise _ => 1
  end.

(** ** Specification-side definitions *)

(** The spec's "resolved absolute path" of a path, relative to the working
    directory [cwd]: made absolute, with [..] components collapsed (the
    file system of the model has no symbolic links). *)
Fixpoint collapse_dotdot (acc l : list string) : list string :=
  match l with
  | [] => rev acc
  | x :: l' =>
      if bool_decide (x = "..") then collapse_dotdot (tail acc) l'
      else collapse_dotdot (x :: acc) l'
  end.

Definition spec_resolved_path (cwd p : Path) : Path :=
  if is_absolute p then mkPath (root p) (collapse_dotdot [] (parts p))
  else mkPath (root cwd) (collapse_dotdot [] (parts cwd ++ parts p)).

(** The conditions under which the spec has file validation fail. *)
Definition file_rejected (w : world) (file_path : string) : Prop :=
  match fs w (to_str (of_str file_path)) with
  | None => True                                  (* does not exist *)
  | Some nd =>
      kind nd ≠ Regular                           (* not a regular file *)
      ∨ readable nd = false                       (* not readable *)
      ∨ st_size nd = 0%N                          (* empty *)
      ∨ (104857600 < st_size nd)%N                (* larger than 100 MiB *)
  end.

(** The first line of a text, without its terminator. *)
Fixpoint first_line (s : string) : string :=
  match s with
  | EmptyString => EmptyString
  | String c s' =>
      if decide (c = Py.LF ∨ c = Py.CR) then EmptyString else String c (first_line s')
  end.

(** The conditions under which the spec has credential loading fail. *)
Definition credentials_rejected (w : world) (credential_file : string) : Prop :=
  match fs w (to_str (of_str credential_file)) with
  | None => True                                  (* missing *)
  | Some nd =>
      readable nd = false ∨ kind nd = Directory   (* unreadable *)
      ∨ Py.strip (first_line (content nd)) = ""   (* first line blank *)
      ∨ (String.length (Py.strip (first_line (content nd))) < 10)%nat
  end.

(** The pathway id has the expected shape: 36 characters, 4 separators. *)
Definition uuid_shaped (mentor_id : string) : Prop :=
  String.length mentor_id = 36%nat ∧ Py.count "-" mentor_id = 4%nat.

Definition is_warning (r : level * string) : Prop := fst r = WARNING.

Global Instance is_warning_dec (r : level * string) : Decision (is_warning r).
Proof. unfold is_warning. apply _. Defined.

(** The MIME table of the spec, as a closed case analysis. *)
Definition spec_mime_type (extension : string) : string :=
  if bool_decide (extension = ".pdf") then "application/pdf"
  else if bool_decide (extension = ".txt") then "text/plain"
  else if bool_decide (extension = ".doc") then "application/msword"
  else if bool_decide (extension = ".docx")
  then "application/vnd.openxmlformats-officedocument.wordprocessingml.document"
  else "application/octet-stream".

Definition known_extension (extension : string) : Prop :=
  extension = ".pdf" ∨ extension = ".txt" ∨ extension = ".doc" ∨ extension = ".docx".

(** ** [upload_document], in parts *)

(** The MIME type [upload_document] gives a path. *)
Definition mime_type_of (file_path : Path) : string :=
  default "application/octet-stream" (mime_types !! Py.lower (suffix file_path)).

(** The events of [upload_document] before it opens the file. *)
Definition upload_prelude (org_id user_id : string) (file_path : Path) (base_url : string)
    : list event :=
  (if bool_decide (mime_type_of file_path = "application/octet-stream")
   then [EvLog WARNING ("Unknown file type: " +:+ Py.lower (suffix file_path)
                        +:+ ", using generic MIME type")]
   else [])
  ++ [EvLog INFO ("Uploading document: " +:+ name file_path);
      EvLog INFO ("Target URL: " +:+ base_url +:+ "/api/ai-index/orgs/" +:+ org_id
                  +:+ "/users/" +:+ user_id +:+ "/documents/train/");
      EvLog INFO ("Document type: file, MIME type: " +:+ mime_type_of file_path)].

(** The request [upload_document] sends for the stream [f] of the file. *)
Definition upload_request (org_id user_id mentor_id : string) (file_path : Path)
    (f api_key base_url : string) (timeout : Z) : Request :=
  {| url := base_url +:+ "/api/ai-index/orgs/" +:+ org_id +:+ "/users/" +:+ user_id
            +:+ "/documents/train/";
     headers := {[ "Authorization" := "Api-Token " +:+ api_key ]};
     files := {[ "file" := (name file_path, f, mime_type_of file_path) ]};
     data := {[ "pathway" := mentor_id; "type" := "file"; "name" := name file_path ]};
     timeout := timeout |}.

(** What [upload_document] makes of the outcome of [requests.post]: its
    result and the events after the request. *)
Definition classify (timeout : Z) (po : post_outcome) : M json :=
  match po with
  | Responded r =>
      if bool_decide (status_code r = 200) || bool_decide (status_code r = 201)
      then match body_json r with
           | JsonOk (JObj items) =>
               (Ret (JObj items),
                [EvLog INFO "Upload successful!";
                 EvLog INFO ("Document ID: "
                             +:+ py_str (default (JStr "N/A") (assoc "document_id" items)))])
           | JsonOk v =>
               (Raise (AttributeError
                         ("'" +:+ type_name v +:+ "' object has no attribute 'get'")),
                [EvLog INFO "Upload successful!"])
           | JsonDecodeError msg =>
               (Raise (DocumentUploadError ("Request failed: " +:+ msg)), [])
           end
      else
        let error_msg :=
          ("Upload failed with status " +:+ Py.str_int (status_code r)) +:+ NL +:+
          match body_json r with
          | JsonOk v => "Details: " +:+ py_repr v
          | JsonDecodeError _ => "Response: " +:+ text r
          end in
        (Raise (DocumentUploadError error_msg), [EvLog ERROR error_msg])
  | PostRaises (RequestsError c m) =>
      (Raise (DocumentUploadError
         (if is_Timeout c
          then "Upload timed out after " +:+ Py.str_int timeout +:+ " seconds. "
               +:+ "The file may be too large or the server is slow to respond."
          else if is_ConnectionError c then "Connection error: " +:+ m
          else "Request failed: " +:+ m)), [])
  | PostRaises e => (Raise e, [])
  end.

(** The messages of the kinds of failure begin differently. *)
Definition indicates_timeout (msg : string) : bool := String.prefix "Upload timed out" msg.
Definition indicates_http_failure (msg : string) : bool :=
  String.prefix "Upload failed with status" msg.

(** ** [main], in parts *)

(** The events of [main] between argument parsing and the [try] statement. *)
Definition main_banner (args : argparse.Namespace) : list event :=
  (if argparse.verbose args then [EvLog DEBUG "Verbose logging enabled"] else [])
  ++ [EvLog INFO (Py.times "=" 60);
      EvLog INFO "Document Upload Script Started";
      EvLog INFO (Py.times "=" 60);
      EvLog INFO ("Organization: " +:+ argparse.org_id args);
      EvLog INFO ("User: " +:+ argparse.user_id args);
      EvLog INFO ("Mentor ID: " +:+ argparse.mentor_id args);
      EvLog INFO ("File: " +:+ argparse.file args);
      EvLog INFO ("Base URL: " +:+ argparse.base_url args);
      EvLog INFO ("Timeout: " +:+ Py.str_int (argparse.timeout args) +:+ "s")].

(** [main] returns the status [k], which becomes that of the process. *)
Definition returns_status (run : M Z) (k : Z) : Prop :=
  result_of run = Ret k ∧ exit_status run = k.

(** The standard error output of a trace. *)
Definition stderr_lines (t : list event) : list string :=
  omap (λ ev, match ev with EvStderr m => Some m | _ => None end) t.

(** ** Two runs that differ in the API key *)

(** Two nodes alike in all but their content. *)
Definition same_but_content (n1 n2 : node) : Prop :=
  kind n1 = kind n2 ∧ readable n1 = readable n2 ∧ st_size n1 = st_size n2.

(** Two worlds whose file systems differ at most in the content of the
    credential file. *)
Definition differ_only_in_credentials (w1 w2 : world) (credential_file : string) : Prop :=
  ∀ p, option_Forall2 same_but_content (fs w1 p) (fs w2 p)
       ∧ (p ≠ to_str (of_str credential_file) → fs w1 p = fs w2 p).

(** Two keys are both accepted, or rejected with the same error. *)
Definition same_verdict (o1 o2 : outcome string) : Prop :=
  match o1, o2 with
  | Ret _, Ret _ => True
  | Raise e1, Raise e2 => e1 = e2
  | _, _ => False
  end.

(** ** The file system calls of a run *)

(** The file system calls of [main], in their order, when every step
    succeeds: two on the credential file, five on the target file. *)
Definition main_fs_plan (args : argparse.Namespace) : list (fs_call * string) :=
  let c := to_str (of_str (argparse.credentials args)) in
  let f := to_str (of_str (argparse.file args)) in
  [(Exists, c); (Open, c); (Exists, f); (IsFile, f); (Access, f); (Stat, f); (Open, f)].

Definition is_error (r : level * string) : Prop := fst r = ERROR.

Global Instance is_error_dec (r : level * string) : Decision (is_error r).
Proof. unfold is_error. apply _. Defined.

(** ** Concrete worlds, used by the examples *)

Definition quoted (s : string) : string := String Py.DQ s +:+ String Py.DQ "".

Definition demo_key : string := "sk-live-0123456789abcdef".

Definition demo_credentials : string :=
  "  " +:+ demo_key +:+ "  " +:+ NL +:+ "a second line, never read" +:+ NL.

Definition demo_fs_with (credentials_text : string) (p : string) : option node :=
  if bool_decide (p = "api_credentials.txt")
  then Some (mkNode Regular true 64 credentials_text)
  else if bool_decide (p = "doc.pdf") then Some (mkNode Regular true 2048 "%PDF-1.4")
  else if bool_decide (p = "notes.xyz") then Some (mkNode Regular true 12 "hello, world")
  else if bool_decide (p = "max.pdf") then Some (mkNode Regular true 104857600 "%PDF-1.4")
  else if bool_decide (p = "big.pdf") then Some (mkNode Regular true 104857601 "%PDF-1.4")
  else if bool_decide (p = "empty.txt") then Some (mkNode Regular true 0 "")
  else if bool_decide (p = "secret.pdf") then Some (mkNode Regular false 2048 "%PDF-1.4")
  else if bool_decide (p = "inbox") then Some (mkNode Directory true 4096 "")
  else None.

Definition demo_fs : string → option node := demo_fs_with demo_credentials.

Definition created_response : Response :=
  mkResponse 201 ("{" +:+ quoted "document_id" +:+ ":" +:+ quoted "abc123" +:+ "}")
    (JsonOk (JObj [("document_id", JStr "abc123")])).

Definition unauthorized_response : Response :=
  mkResponse 401 ("{" +:+ quoted "detail" +:+ ":" +:+ quoted "invalid token" +:+ "}")
    (JsonOk (JObj [("detail", JStr "invalid token")])).

Definition gateway_response : Response :=
  mkResponse 502 "Bad Gateway" (JsonDecodeError "Expecting value: line 1 column 1 (char 0)").

Definition list_response : Response := mkResponse 200 "[]" (JsonOk (JArr [])).

Definition html_response : Response :=
  mkResponse 200 "<html>ok</html>"
    (JsonDecodeError "Expecting value: line 1 column 1 (char 0)").

Definition server (r : Response) : Request → post_outcome := λ _, Responded r.

Definition failing_server (e : exn) : Request → post_outcome := λ _, PostRaises e.

(** A server that checks the token. *)
Definition checking_server (r : Request) : post_outcome :=
  if bool_decide (headers r !! "Authorization" = Some ("Api-Token " +:+ demo_key))
  then Responded created_response
  else Responded unauthorized_response.

(** A server that sends the token back. *)
Definition echo_server (r : Request) : post_outcome :=
  Responded (mkResponse 403 ("bad token: " +:+ default "" (headers r !! "Authorization"))
               (JsonDecodeError "Expecting value: line 1 column 1 (char 0)")).

Definition other_key : string := "sk-test-9876543210fedcba".

Definition demo_world : world := mkWorld demo_fs (server created_response).

Definition demo_world_answering (r : Response) : world := mkWorld demo_fs (server r).

Definition demo_upload (w : world) : M json :=
  upload_document w "syracuse" "jasidel" "25223e76-fc94-4cc2-aec1-f9fb51f0c2bf"
    (of_str "doc.pdf") demo_key "https://base.manager.ai.syr.edu" 300.

Definition demo_argv (file_ : string) (timeout_ : option Z) : argparse.argv :=
  argparse.mkArgv None (Some "jasidel") (Some "25223e76-fc94-4cc2-aec1-f9fb51f0c2bf")
    (Some file_) None None timeout_ false.

Definition demo_args (file_ : string) : argparse.Namespace :=
  argparse.mkNamespace "syracuse" "jasidel" "25223e76-fc94-4cc2-aec1-f9fb51f0c2bf"
    file_ "api_credentials.txt" "https://base.manager.ai.syr.edu" 300 false.

(** * The two short scripts

    [simple_train_mentor_with_file.py] and [train_mentor_with_file.py] do the
    upload without functions: each is one sequence of statements. They are
    modelled as computations over their settings (the four assignments
    [org_id], [user_id], [mentor_id], [file_path] that the user is told to
    change) and a world. They print instead of logging, call [requests.post]
    without a timeout, and give paths to the system as plain strings. The
    three pictographs of their messages lie outside the characters of the
    model; each stands here as its UTF-8 bytes. Standard output is taken to
    accept every character: [print] does not raise. *)

Module Scripts.

(** The exceptions the scripts meet; each carries [str(e)]. [exit()] raises
    [SystemExit(None)]. *)
Inductive exc : Type :=
  | FileNotFoundError (msg : string)
  | PermissionError (msg : string)
  | IsADirectoryError (msg : string)
  | RequestsError (cls : requests_exc) (msg : string)
  | AttributeError (msg : string)
  | OtherException (cls : string) (msg : string)
  | KeyboardInterrupt
  | SystemExit (code : option Z).

(** [isinstance(e, Exception)] *)
Definition is_Exception (e : exc) : bool :=
  match e with KeyboardInterrupt | SystemExit _ => false | _ => true end.

(** [str(e)] *)
Definition str_exc (e : exc) : string :=
  match e with
  | FileNotFoundError m | PermissionError m | IsADirectoryError m
  | RequestsError _ m | AttributeError m | OtherException _ m => m
  | KeyboardInterrupt => ""
  | SystemExit None => "None"
  | SystemExit (Some n) => Py.str_int n
  end.

(** The arguments of [requests.post] in the scripts: no timeout is given. *)
Record Call : Type := mkCall {
  url : string;
  headers : gmap string string;
  files : gmap string (string * string * string);
  data : gmap string string
}.

Inductive answer : Type :=
  | Answers (r : Response)
  | Fails (e : exc).

Record world : Type := mkWorld {
  fs : string → option node;      (* by path, as given to the system *)
  cwd : string;                   (* [os.getcwd()] *)
  post : Call → answer
}.

Inductive event : Type :=
  | Print (text : string)         (* the argument of [print] *)
  | Fs (c : fs_call) (path : string)
  | Post (r : Call).

Inductive result (A : Type) : Type :=
  | Returns (a : A)
  | Raises (e : exc).
Arguments Returns {A} a.
Arguments Raises {A} e.

Definition S (A : Type) : Type := result A * list event.

Definition ret {A} (a : A) : S A := (Returns a, []).
Definition raise {A} (e : exc) : S A := (Raises e, []).
Definition emit (ev : event) : S unit := (Returns tt, [ev]).

Definition bind {A B} (m : S A) (k : A → S B) : S B :=
  match m with
  | (Returns a, t) => let '(o, t') := k a in (o, t ++ t')
  | (Raises e, t) => (Raises e, t)
  end.

Definition try_except {A} (m : S A) (h : exc → S A) : S A :=
  match m with
  | (Raises e, t) => let '(o, t') := h e in (o, t ++ t')
  | r => r
  end.

Declare Scope script_scope.
Delimit Scope script_scope with script.
Notation "x <- m ;; k" := (bind m (λ x, k))
  (at level 100, m at next level, right associativity) : script_scope.
Notation "m ;;; k" := (bind m (λ _, k))
  (at level 100, right associativity) : script_scope.
Local Open Scope script_scope.

Definition result_of {A} (m : S A) : result A := fst m.
Definition trace_of {A} (m : S A) : list event := snd m.

Definition posts (t : list event) : list Call :=
  omap (λ ev, match ev with Post r => Some r | _ => None end) t.

Definition printed (t : list event) : list string :=
  omap (λ ev, match ev with Print s => Some s | _ => None end) t.

Definition fs_calls (t : list event) : list (fs_call * string) :=
  omap (λ ev, match ev with Fs c p => Some (c, p) | _ => None end) t.

(** [print(text)] *)
Definition print (text : string) : S unit := emit (Print text).

(** [exit()] *)
Definition exit {A} : S A := raise (SystemExit None).

(** [open(path)], in either mode. *)
Definition open_ (w : world) (path : string) : S string :=
  emit (Fs Open path) ;;;
  match fs w path with
  | None =>
      raise (FileNotFoundError
               ("[Errno 2] No such file or directory: " +:+ Py.repr_str path))
  | Some nd =>
      if negb (readable nd)
      then raise (PermissionError ("[Errno 13] Permission denied: " +:+ Py.repr_str path))
      else if bool_decide (kind nd = Directory)
      then raise (IsADirectoryError ("[Errno 21] Is a directory: " +:+ Py.repr_str path))
      else ret (content nd)
  end.

(** [os.path.exists(path)] *)
Definition os_path_exists (w : world) (path : string) : S bool :=
  emit (Fs Exists path) ;;; ret (bool_decide (is_Some (fs w path))).

(** [os.path.basename(path)]: what follows the last separator. *)
Definition os_path_basename (path : string) : string := List.last (Py.split "/" path) "".

(** [requests.post(url, headers=..., files=..., data=...)] *)
Definition requests_post (w : world) (c : Call) : S Response :=
  emit (Post c) ;;;
  match post w c with
  | Answers r => ret r
  | Fails e => raise e
  end.

(** [response.json()] *)
Definition Response_json (r : Response) : S json :=
  match body_json r with
  | JsonOk v => ret v
  | JsonDecodeError msg => raise (RequestsError JSONDecodeError msg)
  end.

(** [v.get(k, dflt)] and, with [JNull] for [dflt], [v.get(k)]. *)
Definition get (v : json) (k : string) (dflt : json) : S json :=
  match v with
  | JObj items => ret (default dflt (assoc k items))
  | _ => raise (AttributeError
                  ("'" +:+ type_name v +:+ "' object has no attribute 'get'"))
  end.

Definition CHECK_MARK : string := "✅".
Definition CROSS_MARK : string := "❌".
Definition ARROWS : string := "🔄".

(** The assignments at the head of each script. *)
Record settings : Type := mkSettings {
  org_id : string;
  user_id : string;
  mentor_id : string;
  file_path : string
}.

(** The values the scripts ship with. *)
Definition shipped : settings :=
  {| org_id := "syracuse";
     user_id := "jasidel";
     mentor_id := "25223e76-fc94-4cc2-aec1-f9fb51f0c2bf";
     file_path := "We Are All Confident Idiots.pdf" |}.

(** [simple_train_mentor_with_file.py] *)
Definition simple_train_mentor_with_file (s : settings) (w : world) : S unit :=
  f <- open_ w "api_credentials.txt" ;;
  let api_key := Py.strip (Py.readline f) in
  let url := "https://base.manager.ai.syr.edu/api/ai-index/orgs/" +:+ org_id s
             +:+ "/users/" +:+ user_id s +:+ "/documents/train/" in
  let headers : gmap string string := {[ "Authorization" := "Api-Token " +:+ api_key ]} in
  f <- open_ w (file_path s) ;;
  let files : gmap string (string * string * string) :=
    {[ "file" := (os_path_basename (file_path s), f, "application/pdf") ]} in
  let data : gmap string string :=
    {[ "pathway" := mentor_id s; "type" := "pdf"; "access" := "private" ]} in
  response <- requests_post w (mkCall url headers files data) ;;
  if bool_decide (status_code response = 200) || bool_decide (status_code response = 201)
  then
    result <- Response_json response ;;
    document_id <- get result "document_id" JNull ;;
    print (CHECK_MARK +:+ " Success! Doc ID: " +:+ py_str document_id)
  else
    print (CROSS_MARK +:+ " Error " +:+ Py.str_int (status_code response) +:+ ": "
           +:+ text response).

(** [train_mentor_with_file.py], step 7: what is printed for a response. *)
Definition step_7 (response : Response) : S unit :=
  if bool_decide (status_code response = 200) || bool_decide (status_code response = 201)
  then
    result <- Response_json response ;;
    print (CHECK_MARK +:+ " SUCCESS!") ;;;
    print (Py.times "=" 60) ;;;
    message <- get result "message" (JStr "N/A") ;;
    print ("Message: " +:+ py_str message) ;;;
    task_id <- get result "task_id" (JStr "N/A") ;;
    print ("Task ID: " +:+ py_str task_id) ;;;
    document_id <- get result "document_id" (JStr "N/A") ;;
    print ("Document ID: " +:+ py_str document_id) ;;;
    print (Py.times "=" 60) ;;;
    print (NL +:+ "Your mentor is now learning from this PDF!")
  else if bool_decide (status_code response = 400)
  then
    print (CROSS_MARK +:+ " ERROR: 400 Bad Request") ;;;
    print ("Response: " +:+ text response) ;;;
    print (NL +:+ "Check: pathway ID, file type, or other parameters")
  else if bool_decide (status_code response = 401)
  then
    print (CROSS_MARK +:+ " ERROR: 401 Unauthorized") ;;;
    print ("Response: " +:+ text response) ;;;
    print (NL +:+ "Check: Your API key in api_credentials.txt")
  else if bool_decide (status_code response = 404)
  then
    print (CROSS_MARK +:+ " ERROR: 404 Not Found") ;;;
    print ("Response: " +:+ text response) ;;;
    print (NL +:+ "Check: org_id, user_id, or mentor_id")
  else if bool_decide (status_code response = 413)
  then
    print (CROSS_MARK +:+ " ERROR: 413 File Too Large") ;;;
    print ("Response: " +:+ text response)
  else
    print (CROSS_MARK +:+ " ERROR: " +:+ Py.str_int (status_code response)) ;;;
    print ("Response: " +:+ text response).

(** [train_mentor_with_file.py], the [except] clauses of step 6. *)
Definition step_6_except (s : settings) (e : exc) : S unit :=
  match e with
  | FileNotFoundError _ =>
      print (CROSS_MARK +:+ " Error: Could not open file: " +:+ file_path s)
  | _ =>
      if is_Exception e
      then print (CROSS_MARK +:+ " Unexpected error: " +:+ str_exc e)
      else raise e
  end.

(** [train_mentor_with_file.py] *)
Definition train_mentor_with_file (s : settings) (w : world) : S unit :=
  api_key <- try_except
               (f <- open_ w "api_credentials.txt" ;;
                let api_key := Py.strip (Py.readline f) in
                print (CHECK_MARK +:+ " API key loaded") ;;;
                ret api_key)
               (λ e, match e with
                     | FileNotFoundError _ =>
                         print (CROSS_MARK +:+ " Error: api_credentials.txt not found") ;;;
                         exit
                     | _ => raise e
                     end) ;;
  let url := "https://base.manager.ai.syr.edu/api/ai-index/orgs/" +:+ org_id s
             +:+ "/users/" +:+ user_id s +:+ "/documents/train/" in
  let headers : gmap string string := {[ "Authorization" := "Api-Token " +:+ api_key ]} in
  print (ARROWS +:+ " Uploading file: " +:+ file_path s) ;;;
  print ("To mentor: " +:+ mentor_id s) ;;;
  print ("URL: " +:+ url +:+ NL) ;;;
  found <- os_path_exists w (file_path s) ;;
  (if negb found
   then print (CROSS_MARK +:+ " Error: File not found: " +:+ file_path s) ;;;
        print ("Current directory: " +:+ cwd w) ;;;
        exit
   else ret tt) ;;;
  try_except
    (f <- open_ w (file_path s) ;;
     let files : gmap string (string * string * string) :=
       {[ "file" := (os_path_basename (file_path s), f, "application/pdf") ]} in
     let data : gmap string string :=
       {[ "pathway" := mentor_id s; "type" := "pdf"; "access" := "private" ]} in
     response <- requests_post w (mkCall url headers files data) ;;
     step_7 response)
    (step_6_except s).

(** ** The scripts, in parts *)

(** A file that [open] can give: there, readable, no directory. *)
Definition opens (w : world) (path : string) (nd : node) : Prop :=
  fs w path = Some nd ∧ readable nd = true ∧ kind nd ≠ Directory.

(** What [open] gives for a path. *)
Definition opening (w : world) (path : string) : result string := result_of (open_ w path).

(** What the simple script makes of the answer to its request. *)
Definition simple_after (a : answer) : S unit :=
  response <- match a with Answers r => ret r | Fails e => raise e end ;;
  if bool_decide (status_code response = 200) || bool_decide (status_code response = 201)
  then
    result <- Response_json response ;;
    document_id <- get result "document_id" JNull ;;
    print (CHECK_MARK +:+ " Success! Doc ID: " +:+ py_str document_id)
  else
    print (CROSS_MARK +:+ " Error " +:+ Py.str_int (status_code response) +:+ ": "
           +:+ text response).

(** What the longer script makes of the answer to its request. *)
Definition train_after (s : settings) (a : answer) : S unit :=
  try_except
    (response <- match a with Answers r => ret r | Fails e => raise e end ;;
     step_7 response)
    (step_6_except s).

(** What the longer script prints between reading the key and looking for
    the file. *)
Definition train_announcement (s : settings) : list event :=
  [Print (CHECK_MARK +:+ " API key loaded");
   Print (ARROWS +:+ " Uploading file: " +:+ file_path s);
   Print ("To mentor: " +:+ mentor_id s);
   Print ("URL: " +:+ ("https://base.manager.ai.syr.edu/api/ai-index/orgs/" +:+ org_id s
                       +:+ "/users/" +:+ user_id s +:+ "/documents/train/") +:+ NL)].

(** The request both scripts make for the stream [f] and the key [api_key]. *)
Definition script_call (s : settings) (f api_key : string) : Call :=
  {| url := "https://base.manager.ai.syr.edu/api/ai-index/orgs/" +:+ org_id s
            +:+ "/users/" +:+ user_id s +:+ "/documents/train/";
     headers := {[ "Authorization" := "Api-Token " +:+ api_key ]};
     files := {[ "file" := (os_path_basename (file_path s), f, "application/pdf") ]};
     data := {[ "pathway" := mentor_id s; "type" := "pdf"; "access" := "private" ]} |}.

(** ** Concrete worlds *)

Definition desk_fs (p : string) : option node :=
  if bool_decide (p = "api_credentials.txt")
  then Some (mkNode Regular true 26 ("  sk-live-0123456789abcdef" +:+ NL))
  else if bool_decide (p = "We Are All Confident Idiots.pdf")
  then Some (mkNode Regular true 2048 "%PDF-1.4")
  else if bool_decide (p = "blank.txt") then Some (mkNode Regular true 1 NL)
  else None.

Definition desk (a : answer) : world := mkWorld desk_fs "/home/u" (λ _, a).

(** A file system whose credential file has a blank first line. *)
Definition blank_key_fs (p : string) : option node :=
  if bool_decide (p = "api_credentials.txt") then desk_fs "blank.txt" else desk_fs p.

End Scripts.

(** * Properties *)

Arguments Py.fmt_div_2f : simpl never.
Arguments Py.str_int : simpl never.
Arguments Py.repr_str : simpl never.
Arguments Py.lower : simpl never.
Arguments Py.times : simpl never.
Arguments of_str : simpl never.
Arguments to_str : simpl never.
Arguments suffix : simpl never.
Arguments name : simpl never.
Arguments py_repr : simpl never.

(** ** The model computes *)

Example strip_ex : Py.strip ("  abc def " +:+ String Py.LF "") = "abc def".
Proof. reflexivity. Qed.
Example readline_ex :
  Py.readline ("key" +:+ String Py.CR (String Py.LF "next")) = "key" +:+ String Py.LF "".
Proof. reflexivity. Qed.
Example fmt_ex1 : Py.fmt_div_2f 104857601 20 = "100.00".
Proof. vm_compute. reflexivity. Qed.
Example fmt_ex2 : Py.fmt_div_2f 1536 10 = "1.50".
Proof. vm_compute. reflexivity. Qed.
Example fmt_ex3 : Py.fmt_div_2f 5 10 = "0.00".
Proof. vm_compute. reflexivity. Qed.
Example fmt_ex4 : Py.fmt_div_2f 2621 10 = "2.56".
Proof. vm_compute. reflexivity. Qed.
Example repr_ex : Py.repr_str "it's" = String Py.DQ ("it's" +:+ String Py.DQ "").
Proof. reflexivity. Qed.
Example path_ex1 : of_str "docs//./report.final.PDF" =
  mkPath "" ["docs"; "report.final.PDF"].
Proof. reflexivity. Qed.
Example path_ex2 : suffix (of_str "docs/report.final.PDF") = ".PDF".
Proof. reflexivity. Qed.
Example path_ex3 : suffix (of_str "/home/u/.bashrc") = "" ∧ suffix (of_str "a/b.") = "".
Proof. split; reflexivity. Qed.
Example path_ex4 : to_str (of_str "///a/b/") = "/a/b" ∧ to_str (of_str "") = ".".
Proof. split; reflexivity. Qed.

Example demo_run_succeeds :
  result_of (main demo_world (demo_argv "doc.pdf" None)) = Ret 0
  ∧ List.length (posts (trace_of (main demo_world (demo_argv "doc.pdf" None)))) = 1%nat.
Proof. split; vm_compute; reflexivity. Qed.

(** Case analysis on whatever a [match] or an [if] of the goal inspects. *)
Ltac destruct_matches :=
  repeat (cbv zeta;
          match goal with
          | |- context [match ?x with _ => _ end] => destruct x
          end).

(** ** The monad *)

Lemma result_of_bind {A B} (m : M A) (k : A → M B) :
  result_of (bind m k) =
  match result_of m with Ret a => result_of (k a) | Raise e => Raise e end.
Proof.
  destruct m as [[a|e] t]; simpl; [|reflexivity].
  destruct (k a) as [o t']; reflexivity.
Qed.

Lemma trace_of_bind {A B} (m : M A) (k : A → M B) :
  trace_of (bind m k) =
  trace_of m ++ match result_of m with Ret a => trace_of (k a) | Raise _ => [] end.
Proof.
  destruct m as [[a|e] t]; simpl; [|by rewrite app_nil_r].
  destruct (k a) as [o t']; reflexivity.
Qed.

Lemma result_of_try_except {A} (m : M A) (h : exn → M A) :
  result_of (try_except m h) =
  match result_of m with Ret a => Ret a | Raise e => result_of (h e) end.
Proof.
  destruct m as [[a|e] t]; simpl; [reflexivity|].
  destruct (h e) as [o t']; reflexivity.
Qed.

Lemma trace_of_try_except {A} (m : M A) (h : exn → M A) :
  trace_of (try_except m h) =
  trace_of m ++ match result_of m with Ret _ => [] | Raise e => trace_of (h e) end.
Proof.
  destruct m as [[a|e] t]; simpl; [by rewrite app_nil_r|].
  destruct (h e) as [o t']; reflexivity.
Qed.

Lemma log_lines_app (t t' : list event) :
  log_lines (t ++ t') = log_lines t ++ log_lines t'.
Proof. apply omap_app. Qed.

Lemma posts_app (t t' : list event) : posts (t ++ t') = posts t ++ posts t'.
Proof. apply omap_app. Qed.

(** ** Configuration validation *)

Lemma validate_configuration_nonempty (org_id user_id mentor_id : string) :
  org_id ≠ "" → user_id ≠ "" → mentor_id ≠ "" →
  validate_configuration org_id user_id mentor_id =
  (Ret tt,
   (if negb (String.length mentor_id =? 36)%nat || negb (Py.count "-" mentor_id =? 4)%nat
    then [EvLog WARNING
            ("Mentor ID format looks unusual: " +:+ mentor_id +:+ NL +:+
             "Expected UUID format (e.g., 25223e76-fc94-4cc2-aec1-f9fb51f0c2bf)")]
    else [])
   ++ [EvLog INFO ("Configuration validated - Org: " +:+ org_id +:+ ", User: " +:+ user_id)]).
Proof.
  intros Ho Hu Hm. unfold validate_configuration.
  rewrite !bool_decide_eq_false_2 by assumption.
  destruct (negb _ || negb _); reflexivity.
Qed.

Lemma uuid_shaped_test (mentor_id : string) :
  negb (String.length mentor_id =? 36)%nat || negb (Py.count "-" mentor_id =? 4)%nat = false
  ↔ uuid_shaped mentor_id.
Proof.
  unfold uuid_shaped. rewrite orb_false_iff, !negb_false_iff, !Nat.eqb_eq. tauto.
Qed.

(** C8. Configuration validation succeeds for every non-empty organisation
    id, user id and pathway id, and raises [ConfigurationError] exactly when
    one of the three is empty. When it succeeds, a pathway id that is not 36
    characters long with 4 separators gets exactly one warning in the log,
    and a pathway id of that shape gets none: the warning is not fatal. *)
Theorem validate_configuration_spec (org_id user_id mentor_id : string) :
  let run := validate_configuration org_id user_id mentor_id in
  ((org_id ≠ "" ∧ user_id ≠ "" ∧ mentor_id ≠ "") ↔ result_of run = Ret tt)
  ∧ ((org_id = "" ∨ user_id = "" ∨ mentor_id = "")
     ↔ ∃ msg, result_of run = Raise (ConfigurationError msg))
  ∧ (result_of run = Ret tt → ¬ uuid_shaped mentor_id →
     ∃ msg, filter is_warning (log_lines (trace_of run)) = [(WARNING, msg)])
  ∧ (result_of run = Ret tt → uuid_shaped mentor_id →
     filter is_warning (log_lines (trace_of run)) = []).
Proof.
  intros run.
  destruct (decide (org_id = "")) as [Ho|Ho];
    [|destruct (decide (user_id = "")) as [Hu|Hu];
      [|destruct (decide (mentor_id = "")) as [Hm|Hm]]].
  1-3: assert (Hrun : ∃ msg, result_of run = Raise (ConfigurationError msg))
    by (subst run; unfold validate_configuration;
        repeat (case_bool_decide; try congruence); eexists; reflexivity).
  1-3: destruct Hrun as [msg Hrun]; rewrite Hrun;
    repeat split; try (intros; (discriminate || tauto || eauto)).
  subst run. rewrite validate_configuration_nonempty by assumption.
  pose proof (uuid_shaped_test mentor_id) as Hshape.
  destruct (negb _ || negb _) eqn:Htest; simpl.
  - repeat split; try tauto; try (intros [?|[?|?]]; congruence).
    + intros [msg ?]; discriminate.
    + intros _ _. eexists. reflexivity.
    + intros _ Hs. apply Hshape in Hs. discriminate.
  - repeat split; try tauto; try (intros [?|[?|?]]; congruence).
    intros [msg ?]; discriminate.
Qed.

(** ** File validation *)

Lemma validate_file_path_cases (w : world) (file_path : string) :
  let path := of_str file_path in
  let p := to_str path in
  validate_file_path w file_path =
  match fs w p with
  | None =>
      (Raise (ConfigurationError ("File not found: " +:+ file_path)), [EvFs Exists p])
  | Some nd =>
      if negb (bool_decide (kind nd = Regular))
      then (Raise (ConfigurationError ("Path is not a file: " +:+ file_path)),
            [EvFs Exists p; EvFs IsFile p])
      else if negb (readable nd)
      then (Raise (ConfigurationError ("File is not readable: " +:+ file_path)),
            [EvFs Exists p; EvFs IsFile p; EvFs Access p])
      else if max_size <? Z.of_N (st_size nd)
      then (Raise (ConfigurationError
                     ("File too large: " +:+ Py.fmt_div_2f (Z.of_N (st_size nd)) 20
                      +:+ "MB (max: 100MB)")),
            [EvFs Exists p; EvFs IsFile p; EvFs Access p; EvFs Stat p])
      else if Z.of_N (st_size nd) =? 0
      then (Raise (ConfigurationError ("File is empty: " +:+ file_path)),
            [EvFs Exists p; EvFs IsFile p; EvFs Access p; EvFs Stat p])
      else (Ret path,
            [EvFs Exists p; EvFs IsFile p; EvFs Access p; EvFs Stat p;
             EvLog INFO ("File validated: " +:+ file_path +:+ " ("
                         +:+ Py.fmt_div_2f (Z.of_N (st_size nd)) 10 +:+ "KB)")])
  end.
Proof.
  intros path p. unfold validate_file_path, Path_exists, Path_is_file, os_access_R_OK,
    Path_stat_st_size, lookup_path. fold path. fold p.
  destruct (fs w p) as [nd|] eqn:Hfs.
  - rewrite (bool_decide_eq_true_2 (is_Some (Some nd))) by eauto.
    simpl. destruct (bool_decide (kind nd = Regular)); simpl; [|reflexivity].
    destruct (readable nd); simpl; [|reflexivity].
    destruct (max_size <? _); simpl; [reflexivity|].
    destruct (_ =? 0); reflexivity.
  - rewrite (bool_decide_eq_false_2 (is_Some None)) by (intros [? ?]; discriminate).
    reflexivity.
Qed.



Example validate_file_path_at_the_limit :
  validate_file_path demo_world "max.pdf" =
  (Ret (of_str "max.pdf"),
   [EvFs Exists "max.pdf"; EvFs IsFile "max.pdf"; EvFs Access "max.pdf";
    EvFs Stat "max.pdf"; EvLog INFO "File validated: max.pdf (102400.00KB)"]).
Proof. vm_compute. reflexivity. Qed.

Example validate_file_path_over_the_limit :
  result_of (validate_file_path demo_world "big.pdf") =
  Raise (ConfigurationError "File too large: 100.00MB (max: 100MB)").
Proof. vm_compute. reflexivity. Qed.

Example validate_file_path_failures :
  result_of (validate_file_path demo_world "missing.pdf")
    = Raise (ConfigurationError "File not found: missing.pdf")
  ∧ result_of (validate_file_path demo_world "inbox")
    = Raise (ConfigurationError "Path is not a file: inbox")
  ∧ result_of (validate_file_path demo_world "secret.pdf")
    = Raise (ConfigurationError "File is not readable: secret.pdf")
  ∧ result_of (validate_file_path demo_world "empty.txt")
    = Raise (ConfigurationError "File is empty: empty.txt").
Proof. repeat split; vm_compute; reflexivity. Qed.

(** ** Loading the API key *)

Lemma append_cons (c : ascii) (s t : string) : String c s +:+ t = String c (s +:+ t).
Proof. reflexivity. Qed.

Lemma append_nil (t : string) : "" +:+ t = t.
Proof. reflexivity. Qed.

Lemma rstrip_append_space (s : string) (c : ascii) :
  Py.isspace c = true → Py.rstrip (s +:+ String c "") = Py.rstrip s.
Proof.
  intros Hc. induction s as [|d s IH].
  - rewrite append_nil. simpl. by rewrite Hc.
  - rewrite append_cons. simpl. by rewrite IH.
Qed.

Lemma strip_append_space (s : string) (c : ascii) :
  Py.isspace c = true → Py.strip (s +:+ String c "") = Py.strip s.
Proof.
  intros Hc. unfold Py.strip. induction s as [|d s IH].
  - rewrite append_nil. simpl. by rewrite Hc.
  - rewrite append_cons. simpl. destruct (Py.isspace d); [exact IH|].
    rewrite <- append_cons. by apply rstrip_append_space.
Qed.

Lemma readline_first_line (s : string) :
  Py.readline s = first_line s ∨ Py.readline s = first_line s +:+ String Py.LF "".
Proof.
  induction s as [|c s IH]; [by left|]. simpl.
  destruct (decide (c = Py.LF)) as [->|Hlf].
  { right. rewrite decide_True by auto. reflexivity. }
  destruct (decide (c = Py.CR)) as [->|Hcr].
  { right. rewrite decide_True by auto. reflexivity. }
  rewrite decide_False by tauto.
  destruct IH as [-> | ->]; [by left|by right].
Qed.

Lemma strip_readline (s : string) : Py.strip (Py.readline s) = Py.strip (first_line s).
Proof.
  destruct (readline_first_line s) as [-> | ->]; [reflexivity|].
  by apply strip_append_space.
Qed.

(** What follows the first line terminator does not matter. *)
Lemma first_line_append (line rest : string) :
  first_line line = line → first_line (line +:+ NL +:+ rest) = line.
Proof.
  induction line as [|c line IH]; intros H.
  - reflexivity.
  - rewrite append_cons. simpl in *.
    destruct (decide (c = Py.LF ∨ c = Py.CR)); [discriminate|].
    injection H as H. by rewrite IH.
Qed.

Lemma load_api_key_cases (w : world) (credential_file : string) :
  let cred_path := of_str credential_file in
  let p := to_str cred_path in
  let reading_failed what :=
    (Raise (ConfigurationError
              ("Error reading credentials file: " +:+ errno_msg what cred_path)),
     [EvFs Exists p; EvFs Open p]) in
  load_api_key w credential_file =
  match fs w p with
  | None =>
      (Raise (ConfigurationError
                ("Credentials file not found: " +:+ credential_file +:+ NL +:+
                 "Please create this file with your API key on the first line.")),
       [EvFs Exists p])
  | Some nd =>
      if negb (readable nd) then reading_failed "[Errno 13] Permission denied"
      else if bool_decide (kind nd = Directory) then reading_failed "[Errno 21] Is a directory"
      else
        let api_key := Py.strip (first_line (content nd)) in
        if bool_decide (api_key = "")
        then (Raise (ConfigurationError "API key is empty in credentials file"),
              [EvFs Exists p; EvFs Open p])
        else if (String.length api_key <? 10)%nat
        then (Raise (ConfigurationError "API key appears to be invalid (too short)"),
              [EvFs Exists p; EvFs Open p])
        else (Ret api_key,
              [EvFs Exists p; EvFs Open p; EvLog INFO "API key loaded successfully"])
  end.
Proof.
  intros cred_path p reading_failed. subst reading_failed.
  unfold load_api_key, Path_exists, open_, lookup_path. fold cred_path. fold p.
  destruct (fs w p) as [nd|] eqn:Hfs.
  - rewrite (bool_decide_eq_true_2 (is_Some (Some nd))) by eauto. simpl.
    destruct (readable nd); simpl; [|reflexivity].
    destruct (bool_decide (kind nd = Directory)); simpl; [reflexivity|].
    rewrite strip_readline.
    destruct (bool_decide (Py.strip (first_line (content nd)) = "")); simpl; [reflexivity|].
    destruct (_ <? 10)%nat; reflexivity.
  - rewrite (bool_decide_eq_false_2 (is_Some None)) by (intros [? ?]; discriminate).
    reflexivity.
Qed.


Example load_api_key_demo :
  load_api_key demo_world "api_credentials.txt" =
  (Ret "sk-live-0123456789abcdef",
   [EvFs Exists "api_credentials.txt"; EvFs Open "api_credentials.txt";
    EvLog INFO "API key loaded successfully"]).
Proof. vm_compute. reflexivity. Qed.

Example load_api_key_failures :
  result_of (load_api_key demo_world "nowhere.txt")
    = Raise (ConfigurationError
               ("Credentials file not found: nowhere.txt" +:+ NL +:+
                "Please create this file with your API key on the first line."))
  ∧ result_of (load_api_key demo_world "secret.pdf")
    = Raise (ConfigurationError
               "Error reading credentials file: [Errno 13] Permission denied: 'secret.pdf'")
  ∧ result_of (load_api_key demo_world "empty.txt")
    = Raise (ConfigurationError "API key is empty in credentials file")
  ∧ result_of (load_api_key demo_world "doc.pdf")
    = Raise (ConfigurationError "API key appears to be invalid (too short)").
Proof. repeat split; vm_compute; reflexivity. Qed.

(** ** The uploader *)

(** [upload_document] when the file cannot be opened: the error of [open]
    leaves the function as it is, and nothing is sent. *)
Lemma upload_document_not_opened (w : world) (org_id user_id mentor_id : string)
    (file_path : Path) (api_key base_url : string) (timeout : Z) (e : exn) :
  result_of (open_ w file_path) = Raise e →
  upload_document w org_id user_id mentor_id file_path api_key base_url timeout =
  (Raise e, upload_prelude org_id user_id file_path base_url
            ++ [EvFs Open (to_str file_path)]).
Proof.
  unfold upload_document, upload_prelude, mime_type_of, open_, lookup_path.
  destruct (fs w (to_str file_path)) as [nd|]; simpl.
  - destruct (readable nd); simpl;
      [destruct (bool_decide (kind nd = Directory)); simpl|].
    + intros [= <-]. destruct (bool_decide (default _ _ = _)); reflexivity.
    + discriminate.
    + intros [= <-]. destruct (bool_decide (default _ _ = _)); reflexivity.
  - intros [= <-]. destruct (bool_decide (default _ _ = _)); reflexivity.
Qed.

(** [upload_document] when the file opens: one request, then the
    classification of its outcome. *)
Lemma upload_document_opened (w : world) (org_id user_id mentor_id : string)
    (file_path : Path) (api_key base_url : string) (timeout : Z) (f : string) :
  result_of (open_ w file_path) = Ret f →
  let r := upload_request org_id user_id mentor_id file_path f api_key base_url timeout in
  upload_document w org_id user_id mentor_id file_path api_key base_url timeout =
  (result_of (classify timeout (http w r)),
   upload_prelude org_id user_id file_path base_url
   ++ [EvFs Open (to_str file_path); EvPost r] ++ trace_of (classify timeout (http w r))).
Proof.
  unfold upload_document, upload_prelude, upload_request, mime_type_of, open_,
    requests_post, lookup_path.
  destruct (fs w (to_str file_path)) as [nd|]; simpl; [|discriminate].
  destruct (readable nd); simpl; [|discriminate].
  destruct (bool_decide (kind nd = Directory)); simpl; [discriminate|].
  intros [= <-].
  destruct (bool_decide (default _ _ = _)); simpl.
  all: destruct (http w _) as [r|e]; simpl.
  all: try (unfold Response_json;
            destruct (bool_decide (status_code r = 200) || bool_decide (status_code r = 201));
            simpl; destruct (body_json r) as [[]|]; reflexivity).
  all: destruct e as [| |c m| | | | |]; simpl; try reflexivity.
  all: destruct (is_Timeout c); [reflexivity|destruct (is_ConnectionError c); reflexivity].
Qed.

Lemma open_validated (w : world) (file_path : string) (path : Path) :
  result_of (validate_file_path w file_path) = Ret path →
  ∃ nd, fs w (to_str path) = Some nd ∧ result_of (open_ w path) = Ret (content nd).
Proof.
  rewrite validate_file_path_cases. unfold open_, lookup_path.
  destruct (fs w (to_str (of_str file_path))) as [nd|] eqn:Hfs; [|discriminate].
  case_bool_decide as Hk; simpl; [|discriminate].
  destruct (readable nd) eqn:Hr; simpl; [|discriminate].
  destruct (max_size <? _); [discriminate|].
  destruct (_ =? 0); [discriminate|].
  intros [= <-]. exists nd. rewrite Hfs. simpl. rewrite Hr. simpl.
  rewrite bool_decide_eq_false_2 by congruence. done.
Qed.

Lemma mime_type_of_spec (file_path : Path) :
  mime_type_of file_path = spec_mime_type (Py.lower (suffix file_path)).
Proof.
  unfold mime_type_of, spec_mime_type, mime_types.
  generalize (Py.lower (suffix file_path)). intros ext.
  do 4 (case_bool_decide; [subst ext; reflexivity|]).
  rewrite !lookup_insert_ne by congruence.
  rewrite lookup_singleton_ne by congruence. reflexivity.
Qed.

Lemma spec_mime_type_unknown (extension : string) :
  spec_mime_type extension = "application/octet-stream" ↔ ¬ known_extension extension.
Proof.
  unfold spec_mime_type, known_extension.
  repeat case_bool_decide; split; intros; try discriminate; try tauto.
Qed.

(** After the request, [upload_document] only logs, at INFO or ERROR. *)
Lemma classify_quiet (timeout : Z) (po : post_outcome) :
  posts (trace_of (classify timeout po)) = []
  ∧ fs_calls (trace_of (classify timeout po)) = []
  ∧ filter is_warning (log_lines (trace_of (classify timeout po))) = [].
Proof.
  destruct po as [r|e]; simpl.
  - destruct (bool_decide _ || bool_decide _); [destruct (body_json r) as [[]|]|];
      repeat split; reflexivity.
  - destruct e; repeat split; reflexivity.
Qed.

Lemma upload_prelude_quiet (org_id user_id : string) (file_path : Path) (base_url : string) :
  posts (upload_prelude org_id user_id file_path base_url) = []
  ∧ fs_calls (upload_prelude org_id user_id file_path base_url) = [].
Proof. unfold upload_prelude. destruct (bool_decide _); split; reflexivity. Qed.

Lemma upload_prelude_warnings (org_id user_id : string) (file_path : Path) (base_url : string) :
  filter is_warning (log_lines (upload_prelude org_id user_id file_path base_url)) =
  if bool_decide (mime_type_of file_path = "application/octet-stream")
  then [(WARNING, "Unknown file type: " +:+ Py.lower (suffix file_path)
                  +:+ ", using generic MIME type")]
  else [].
Proof. unfold upload_prelude. destruct (bool_decide _); reflexivity. Qed.

(** C6. For a validated file, [upload_document] sends exactly one POST: to
    [{base_url}/api/ai-index/orgs/{org_id}/users/{user_id}/documents/train/],
    with the header [Authorization: Api-Token {api_key}], one file part
    [file] carrying the base name, the content of the file and the MIME type
    of the closed table, and the form fields [pathway], [type] (always
    [file]) and [name] (the base name). An extension outside the table gets
    [application/octet-stream] and one warning; an extension of the table
    gets no warning. *)
Theorem upload_document_request (w : world) (org_id user_id mentor_id file_path : string)
    (path : Path) (api_key base_url : string) (timeout : Z) :
  result_of (validate_file_path w file_path) = Ret path →
  let run := upload_document w org_id user_id mentor_id path api_key base_url timeout in
  let extension := Py.lower (suffix path) in
  ∃ nd, fs w (to_str path) = Some nd
  ∧ posts (trace_of run) =
    [ {| url := base_url +:+ "/api/ai-index/orgs/" +:+ org_id +:+ "/users/" +:+ user_id
                +:+ "/documents/train/";
         headers := {[ "Authorization" := "Api-Token " +:+ api_key ]};
         files := {[ "file" := (name path, content nd, spec_mime_type extension) ]};
         data := {[ "pathway" := mentor_id; "type" := "file"; "name" := name path ]};
         timeout := timeout |} ]
  ∧ (¬ known_extension extension →
     spec_mime_type extension = "application/octet-stream"
     ∧ filter is_warning (log_lines (trace_of run)) =
       [(WARNING, "Unknown file type: " +:+ extension +:+ ", using generic MIME type")])
  ∧ (known_extension extension → filter is_warning (log_lines (trace_of run)) = []).
Proof.
  intros Hvalid run extension.
  destruct (open_validated _ _ _ Hvalid) as (nd & Hfs & Hopen).
  exists nd. split; [assumption|].
  set (r := upload_request org_id user_id mentor_id path (content nd) api_key base_url
              timeout).
  assert (Htrace : trace_of run =
            upload_prelude org_id user_id path base_url
            ++ [EvFs Open (to_str path); EvPost r] ++ trace_of (classify timeout (http w r)))
    by (subst run; rewrite (upload_document_opened _ _ _ _ _ _ _ _ _ Hopen); reflexivity).
  rewrite Htrace. clear Htrace.
  destruct (classify_quiet timeout (http w r)) as (Hp & _ & Hw).
  destruct (upload_prelude_quiet org_id user_id path base_url) as (Hp' & _).
  rewrite !posts_app, !log_lines_app, !filter_app, Hp, Hp', Hw, upload_prelude_warnings.
  rewrite mime_type_of_spec. fold extension.
  pose proof (spec_mime_type_unknown extension) as Hunknown.
  split; [|split].
  - subst r. unfold upload_request. rewrite mime_type_of_spec. reflexivity.
  - intros Hext. apply Hunknown in Hext. split; [assumption|].
    rewrite bool_decide_eq_true_2 by assumption. reflexivity.
  - intros Hext. rewrite bool_decide_eq_false_2 by tauto. reflexivity.
Qed.

Lemma upload_document_request_demo :
  ∃ nd, demo_fs "doc.pdf" = Some nd
  ∧ posts (trace_of (upload_document demo_world "syracuse" "jasidel" "pathway-1"
                       (of_str "doc.pdf") demo_key "https://example.org" 300)) =
    [ {| url := "https://example.org/api/ai-index/orgs/syracuse/users/jasidel/documents/train/";
         headers := {[ "Authorization" := "Api-Token sk-live-0123456789abcdef" ]};
         files := {[ "file" := ("doc.pdf", content nd, "application/pdf") ]};
         data := {[ "pathway" := "pathway-1"; "type" := "file"; "name" := "doc.pdf" ]};
         timeout := 300 |} ].
Proof.
  destruct (upload_document_request demo_world "syracuse" "jasidel" "pathway-1" "doc.pdf"
              (of_str "doc.pdf") demo_key "https://example.org" 300)
    as (nd & Hfs & Hposts & _); [vm_compute; reflexivity|].
  exists nd. split; [exact Hfs|exact Hposts].
Defined.

Example unknown_extension_demo :
  let run := upload_document demo_world "syracuse" "jasidel" "pathway-1"
               (of_str "notes.xyz") demo_key "https://example.org" 300 in
  filter is_warning (log_lines (trace_of run)) =
    [(WARNING, "Unknown file type: .xyz, using generic MIME type")]
  ∧ ∃ r, posts (trace_of run) = [r]
         ∧ files r !! "file" = Some ("notes.xyz", "hello, world", "application/octet-stream").
Proof. split; [vm_compute; reflexivity|]. eexists. split; vm_compute; reflexivity. Qed.

Example upper_case_extension : mime_type_of (of_str "docs/REPORT.PDF") = "application/pdf".
Proof. vm_compute. reflexivity. Qed.

(** ** Classification of the response *)

(** Status 200 or 201 with a JSON object as body: the object is returned. *)
Lemma upload_document_success (w : world) (org_id user_id mentor_id : string)
    (path : Path) (api_key base_url : string) (timeout : Z) (f : string)
    (resp : Response) (items : list (string * json)) :
  result_of (open_ w path) = Ret f →
  http w (upload_request org_id user_id mentor_id path f api_key base_url timeout)
    = Responded resp →
  status_code resp = 200 ∨ status_code resp = 201 →
  body_json resp = JsonOk (JObj items) →
  result_of (upload_document w org_id user_id mentor_id path api_key base_url timeout)
    = Ret (JObj items).
Proof.
  intros Hopen Hhttp Hstatus Hbody.
  rewrite (upload_document_opened _ _ _ _ _ _ _ _ _ Hopen). cbn [result_of fst].
  rewrite Hhttp. unfold classify. rewrite Hbody.
  destruct Hstatus as [-> | ->]; reflexivity.
Qed.

(** Status 200 or 201 with a body that is not JSON: the decoding error of
    [Response.json] is a [RequestException], wrapped by the last handler. *)
Lemma upload_document_malformed_success (w : world) (org_id user_id mentor_id : string)
    (path : Path) (api_key base_url : string) (timeout : Z) (f : string)
    (resp : Response) (msg : string) :
  result_of (open_ w path) = Ret f →
  http w (upload_request org_id user_id mentor_id path f api_key base_url timeout)
    = Responded resp →
  status_code resp = 200 ∨ status_code resp = 201 →
  body_json resp = JsonDecodeError msg →
  result_of (upload_document w org_id user_id mentor_id path api_key base_url timeout)
    = Raise (DocumentUploadError ("Request failed: " +:+ msg)).
Proof.
  intros Hopen Hhttp Hstatus Hbody.
  rewrite (upload_document_opened _ _ _ _ _ _ _ _ _ Hopen). cbn [result_of fst].
  rewrite Hhttp. unfold classify. rewrite Hbody.
  destruct Hstatus as [-> | ->]; reflexivity.
Qed.

(** Status 200 or 201 with a JSON body that is not an object: the log line
    for the document id calls [get] on it, and the [AttributeError] is caught
    by no handler of [upload_document]. *)
Lemma upload_document_not_an_object (w : world) (org_id user_id mentor_id : string)
    (path : Path) (api_key base_url : string) (timeout : Z) (f : string)
    (resp : Response) (v : json) :
  result_of (open_ w path) = Ret f →
  http w (upload_request org_id user_id mentor_id path f api_key base_url timeout)
    = Responded resp →
  status_code resp = 200 ∨ status_code resp = 201 →
  body_json resp = JsonOk v →
  (∀ items, v ≠ JObj items) →
  result_of (upload_document w org_id user_id mentor_id path api_key base_url timeout)
    = Raise (AttributeError ("'" +:+ type_name v +:+ "' object has no attribute 'get'")).
Proof.
  intros Hopen Hhttp Hstatus Hbody Hv.
  rewrite (upload_document_opened _ _ _ _ _ _ _ _ _ Hopen). cbn [result_of fst].
  rewrite Hhttp. unfold classify. rewrite Hbody.
  destruct Hstatus as [-> | ->]; destruct v; try reflexivity; by destruct (Hv items).
Qed.

Example upload_created_demo :
  ∃ items, result_of (demo_upload (demo_world_answering created_response)) = Ret (JObj items)
           ∧ assoc "document_id" items = Some (JStr "abc123").
Proof. eexists. split; vm_compute; reflexivity. Qed.

Example upload_html_demo :
  result_of (demo_upload (demo_world_answering html_response)) =
  Raise (DocumentUploadError "Request failed: Expecting value: line 1 column 1 (char 0)").
Proof. vm_compute. reflexivity. Qed.

(** C2, where the code departs from it. A response with status 200 whose
    body is the JSON list [[]] is neither returned as the success result nor
    turned into a [DocumentUploadError]: [upload_document] raises an
    [AttributeError], after logging that the upload was successful. *)
Theorem upload_document_list_body :
  demo_upload (demo_world_answering list_response) =
  (Raise (AttributeError "'list' object has no attribute 'get'"),
   [EvLog INFO "Uploading document: doc.pdf";
    EvLog INFO "Target URL: https://base.manager.ai.syr.edu/api/ai-index/orgs/syracuse/users/jasidel/documents/train/";
    EvLog INFO "Document type: file, MIME type: application/pdf";
    EvFs Open "doc.pdf";
    EvPost (upload_request "syracuse" "jasidel" "25223e76-fc94-4cc2-aec1-f9fb51f0c2bf"
              (of_str "doc.pdf") "%PDF-1.4" demo_key "https://base.manager.ai.syr.edu" 300);
    EvLog INFO "Upload successful!"]).
Proof. vm_compute. reflexivity. Qed.



Example upload_gateway_demo :
  result_of (demo_upload (demo_world_answering gateway_response)) =
  Raise (DocumentUploadError
           ("Upload failed with status 502" +:+ NL +:+ "Response: Bad Gateway")).
Proof. vm_compute. reflexivity. Qed.

Example upload_timeout_demo :
  result_of (demo_upload (mkWorld demo_fs
               (failing_server (RequestsError ConnectTimeout "connect timed out")))) =
  Raise (DocumentUploadError
           "Upload timed out after 300 seconds. The file may be too large or the server is slow to respond.").
Proof. vm_compute. reflexivity. Qed.

Example upload_interrupted_demo :
  result_of (demo_upload (mkWorld demo_fs (failing_server KeyboardInterrupt))) =
  Raise KeyboardInterrupt.
Proof. vm_compute. reflexivity. Qed.

(** ** The command line and [main] *)

Lemma parse_arguments_cases (a : argparse.argv) :
  (∃ args, parse_arguments a = (Ret args, []) ∧ 1 ≤ argparse.timeout args
           ∧ argparse.timeout args = default 300 (argparse.t a))
  ∨ (∃ msg, parse_arguments a = (Raise (SystemExit 2), [EvStderr msg])
            ∧ (is_Some (argparse.u a) → is_Some (argparse.m a) → is_Some (argparse.f a) →
               msg = "Timeout must be at least 1 second" ∧ default 300 (argparse.t a) < 1)).
Proof.
  unfold parse_arguments, argparse.parse_args.
  destruct (argparse.u a) as [user|], (argparse.m a) as [mentor|],
           (argparse.f a) as [file_|]; simpl.
  2-8: right; eexists; split; [reflexivity|];
       intros [? ?] [? ?] [? ?]; discriminate.
  destruct (Z.ltb_spec (default 300 (argparse.t a)) 1) as [Hlt|Hge].
  - right. eexists. split; [reflexivity|]. intros _ _ _. split; [reflexivity|assumption].
  - left. eexists. split; [reflexivity|]. simpl. split; [assumption|reflexivity].
Qed.

Lemma main_cases (w : world) (a : argparse.argv) :
  match parse_arguments a with
  | (Ret args, t) =>
      main w a =
      (result_of (try_except (main_try w args) main_except),
       t ++ main_banner args ++ trace_of (try_except (main_try w args) main_except))
  | (Raise e, t) => main w a = (Raise e, t)
  end.
Proof.
  unfold main, main_banner. destruct (parse_arguments a) as [[args|e] t]; [|reflexivity].
  simpl. destruct (try_except _ _) as [o t']. simpl.
  destruct (argparse.verbose args); reflexivity.
Qed.

Lemma main_parsed (w : world) (a : argparse.argv) (args : argparse.Namespace) :
  result_of (parse_arguments a) = Ret args →
  main w a =
  (result_of (try_except (main_try w args) main_except),
   main_banner args ++ trace_of (try_except (main_try w args) main_except)).
Proof.
  intros Hparse. pose proof (main_cases w a) as Hmain.
  destruct (parse_arguments_cases a) as [(args' & Ha & _) | (msg & Ha & _)];
    rewrite Ha in Hparse, Hmain; simpl in Hparse; [|discriminate].
  injection Hparse as ->. exact Hmain.
Qed.

(** C4, as the code has it. A timeout below 1 ends [main] in
    [parse_arguments]: [parser.error] writes to standard error and raises
    [SystemExit] with status 2 (no [ConfigurationError] is raised, and the
    status is not 1). Nothing else has happened by then: no log line, no file
    system call, no request. *)
Theorem main_timeout_below_1 (w : world) (a : argparse.argv) (timeout : Z) :
  argparse.t a = Some timeout → timeout < 1 →
  ∃ msg, main w a = (Raise (SystemExit 2), [EvStderr msg])
    ∧ exit_status (main w a) = 2
    ∧ (is_Some (argparse.u a) → is_Some (argparse.m a) → is_Some (argparse.f a) →
       msg = "Timeout must be at least 1 second").
Proof.
  intros Ht Hlt. pose proof (main_cases w a) as Hmain.
  destruct (parse_arguments_cases a) as [(args & Ha & Hge & Heq) | (msg & Ha & Hmsg)];
    rewrite Ha in Hmain.
  - rewrite Ht in Heq. simpl in Heq. lia.
  - exists msg. rewrite Hmain. repeat split. intros. by apply Hmsg.
Qed.

Lemma main_timeout_below_1_demo :
  ∃ msg, main demo_world (demo_argv "doc.pdf" (Some 0)) = (Raise (SystemExit 2), [EvStderr msg])
    ∧ exit_status (main demo_world (demo_argv "doc.pdf" (Some 0))) = 2
    ∧ (is_Some (Some "jasidel") → is_Some (Some "25223e76-fc94-4cc2-aec1-f9fb51f0c2bf") →
       is_Some (Some "doc.pdf") → msg = "Timeout must be at least 1 second").
Proof.
  exact (main_timeout_below_1 demo_world (demo_argv "doc.pdf" (Some 0)) 0 eq_refl eq_refl).
Defined.

(** C4, as the spec states it, fails: with the timeout 0 no
    [ConfigurationError] is raised or reported, and the exit status is 2. *)
Lemma main_timeout_0_is_no_ConfigurationError :
  let run := main demo_world (demo_argv "doc.pdf" (Some 0)) in
  result_of run = Raise (SystemExit 2)
  ∧ (∀ msg, result_of run ≠ Raise (ConfigurationError msg))
  ∧ ¬ returns_status run 1
  ∧ log_lines (trace_of run) = []
  ∧ stderr_lines (trace_of run) = ["Timeout must be at least 1 second"].
Proof.
  repeat split; try (vm_compute; congruence).
  intros [H _]. vm_compute in H. discriminate.
Qed.

(** ** Exit status *)

Lemma main_try_cases (w : world) (args : argparse.Namespace) :
  let conf := validate_configuration (argparse.org_id args) (argparse.user_id args)
                (argparse.mentor_id args) in
  let key := load_api_key w (argparse.credentials args) in
  let file_ := validate_file_path w (argparse.file args) in
  main_try w args =
  match result_of conf with
  | Raise e => (Raise e, trace_of conf)
  | Ret _ =>
    match result_of key with
    | Raise e => (Raise e, trace_of conf ++ trace_of key)
    | Ret api_key =>
      match result_of file_ with
      | Raise e => (Raise e, trace_of conf ++ trace_of key ++ trace_of file_)
      | Ret path =>
          let up := upload_document w (argparse.org_id args) (argparse.user_id args)
                      (argparse.mentor_id args) path api_key (argparse.base_url args)
                      (argparse.timeout args) in
          match result_of up with
          | Raise e =>
              (Raise e, trace_of conf ++ trace_of key ++ trace_of file_ ++ trace_of up)
          | Ret _ =>
              (Ret 0, trace_of conf ++ trace_of key ++ trace_of file_ ++ trace_of up
                      ++ [EvLog INFO (Py.times "=" 60);
                          EvLog INFO "Script completed successfully!";
                          EvLog INFO (Py.times "=" 60)])
          end
      end
    end
  end.
Proof.
  intros conf key file_. unfold main_try. fold conf key file_.
  destruct conf as [[[]|e] tc]; [|reflexivity]. simpl.
  destruct key as [[api_key|e] tk]; [|reflexivity]. simpl.
  destruct file_ as [[path|e] tf]; [|reflexivity]. simpl.
  destruct (upload_document _ _ _ _ _ _ _ _) as [[v|e] tu]; reflexivity.
Qed.

Lemma main_try_returns_0 (w : world) (args : argparse.Namespace) (n : Z) :
  result_of (main_try w args) = Ret n → n = 0.
Proof.
  unfold main_try.
  repeat (rewrite result_of_bind;
          match goal with |- context [match result_of ?m with Ret _ => _ | Raise _ => _ end] =>
            destruct (result_of m); [|discriminate] end).
  simpl. congruence.
Qed.

Lemma main_result (w : world) (a : argparse.argv) (args : argparse.Namespace) :
  result_of (parse_arguments a) = Ret args →
  result_of (main w a) =
  match result_of (main_try w args) with
  | Ret n => Ret n
  | Raise e => result_of (main_except e)
  end.
Proof.
  intros Hparse. rewrite (main_parsed _ _ _ Hparse). cbn [result_of fst].
  apply result_of_try_except.
Qed.

Lemma returns_status_intro (run : M Z) (k : Z) : result_of run = Ret k → returns_status run k.
Proof. intros H. split; [assumption|]. unfold exit_status. by rewrite H. Qed.

(** C9. Once the arguments are parsed, [main] returns 0 when the body of its
    [try] statement completes (the upload succeeded), 1 when the body raises
    a [ConfigurationError], a [DocumentUploadError] or any other
    [Exception], and 130 when it raises [KeyboardInterrupt]; in each case
    [main] returns, and the status is that of the process. *)
Theorem main_exit_status (w : world) (a : argparse.argv) (args : argparse.Namespace) :
  result_of (parse_arguments a) = Ret args →
  let body := result_of (main_try w args) in
  (∀ n, body = Ret n → returns_status (main w a) 0)
  ∧ (∀ msg, body = Raise (ConfigurationError msg) → returns_status (main w a) 1)
  ∧ (∀ msg, body = Raise (DocumentUploadError msg) → returns_status (main w a) 1)
  ∧ (∀ e, body = Raise e → is_Exception e = true → returns_status (main w a) 1)
  ∧ (body = Raise KeyboardInterrupt → returns_status (main w a) 130).
Proof.
  intros Hparse body. subst body. pose proof (main_result w a args Hparse) as Hmain.
  split_and!.
  1: intros n Hbody; rewrite (main_try_returns_0 _ _ _ Hbody) in Hbody.
  2-3: intros msg Hbody.
  4: intros e Hbody He.
  5: intros Hbody.
  all: apply returns_status_intro; rewrite Hmain, Hbody; try reflexivity.
  destruct e; try discriminate; reflexivity.
Qed.

Lemma main_exit_status_demo :
  returns_status (main demo_world (demo_argv "doc.pdf" None)) 0.
Proof.
  destruct (main_exit_status demo_world (demo_argv "doc.pdf" None) (demo_args "doc.pdf")
              eq_refl) as [Hok _].
  apply (Hok 0). vm_compute. reflexivity.
Defined.

Example unusual_pathway_id_uploads :
  let run := main demo_world
               (argparse.mkArgv None (Some "jasidel") (Some "abc-123") (Some "doc.pdf")
                  None None None false) in
  result_of run = Ret 0
  ∧ List.length (posts (trace_of run)) = 1%nat
  ∧ List.length (filter is_warning (log_lines (trace_of run))) = 1%nat.
Proof. repeat split; vm_compute; reflexivity. Qed.

Example exit_status_demo :
  exit_status (main (demo_world_answering unauthorized_response) (demo_argv "doc.pdf" None)) = 1
  ∧ exit_status (main demo_world (demo_argv "big.pdf" None)) = 1
  ∧ exit_status (main (demo_world_answering list_response) (demo_argv "doc.pdf" None)) = 1
  ∧ exit_status (main (mkWorld demo_fs (failing_server KeyboardInterrupt))
                   (demo_argv "doc.pdf" None)) = 130.
Proof. repeat split; vm_compute; reflexivity. Qed.

(** ** No request before validation *)

Lemma validate_configuration_quiet (org_id user_id mentor_id : string) :
  posts (trace_of (validate_configuration org_id user_id mentor_id)) = []
  ∧ fs_calls (trace_of (validate_configuration org_id user_id mentor_id)) = [].
Proof.
  unfold validate_configuration. repeat (case_bool_decide; [split; reflexivity|]).
  destruct (negb _ || negb _); split; reflexivity.
Qed.

Lemma validate_configuration_result (org_id user_id mentor_id : string) :
  result_of (validate_configuration org_id user_id mentor_id) = Ret tt
  ∨ ∃ msg, result_of (validate_configuration org_id user_id mentor_id)
           = Raise (ConfigurationError msg).
Proof.
  unfold validate_configuration. repeat (case_bool_decide; [right; eexists; reflexivity|]).
  left. destruct (negb _ || negb _); reflexivity.
Qed.

Lemma load_api_key_posts (w : world) (credential_file : string) :
  posts (trace_of (load_api_key w credential_file)) = [].
Proof.
  rewrite load_api_key_cases.
  destruct_matches;
    reflexivity.
Qed.

Lemma load_api_key_result (w : world) (credential_file : string) :
  (∃ api_key, result_of (load_api_key w credential_file) = Ret api_key)
  ∨ ∃ msg, result_of (load_api_key w credential_file) = Raise (ConfigurationError msg).
Proof.
  rewrite load_api_key_cases.
  destruct_matches;
    simpl; eauto.
Qed.

Lemma validate_file_path_posts (w : world) (file_path : string) :
  posts (trace_of (validate_file_path w file_path)) = [].
Proof.
  rewrite validate_file_path_cases.
  destruct_matches;
    reflexivity.
Qed.

Lemma validate_file_path_too_large (w : world) (file_path : string) (nd : node) :
  fs w (to_str (of_str file_path)) = Some nd → (104857600 < st_size nd)%N →
  ∃ msg, result_of (validate_file_path w file_path) = Raise (ConfigurationError msg).
Proof.
  intros Hfs Hbig. rewrite validate_file_path_cases, Hfs. unfold max_size.
  destruct (negb (bool_decide _)); [eauto|]. destruct (negb (readable nd)); [eauto|].
  destruct (Z.ltb_spec (100 * 1024 * 1024) (Z.of_N (st_size nd))); [eauto|lia].
Qed.

Lemma main_except_posts (e : exn) : posts (trace_of (main_except e)) = [].
Proof. destruct e; reflexivity. Qed.

Lemma main_banner_posts (args : argparse.Namespace) : posts (main_banner args) = [].
Proof. unfold main_banner. destruct (argparse.verbose args); reflexivity. Qed.

Lemma main_posts (w : world) (a : argparse.argv) (args : argparse.Namespace) :
  result_of (parse_arguments a) = Ret args →
  posts (trace_of (main w a)) = posts (trace_of (main_try w args)).
Proof.
  intros Hparse. rewrite (main_parsed _ _ _ Hparse). cbn [trace_of snd].
  rewrite trace_of_try_except, !posts_app, main_banner_posts.
  destruct (result_of (main_try w args)); [by rewrite app_nil_r|].
  by rewrite main_except_posts, app_nil_r.
Qed.

(** The requests of the body of [main]: those of [upload_document], when the
    three validations have returned; none otherwise. *)
Lemma main_try_posts (w : world) (args : argparse.Namespace) :
  posts (trace_of (main_try w args)) =
  match result_of (validate_configuration (argparse.org_id args) (argparse.user_id args)
                     (argparse.mentor_id args)),
        result_of (load_api_key w (argparse.credentials args)),
        result_of (validate_file_path w (argparse.file args)) with
  | Ret _, Ret api_key, Ret path =>
      posts (trace_of (upload_document w (argparse.org_id args) (argparse.user_id args)
                         (argparse.mentor_id args) path api_key (argparse.base_url args)
                         (argparse.timeout args)))
  | _, _, _ => []
  end.
Proof.
  unfold main_try. rewrite trace_of_bind, posts_app.
  rewrite (proj1 (validate_configuration_quiet _ _ _)).
  destruct (result_of (validate_configuration _ _ _)); [|reflexivity].
  rewrite trace_of_bind, posts_app, load_api_key_posts.
  destruct (result_of (load_api_key _ _)) as [api_key|]; [|reflexivity].
  rewrite trace_of_bind, posts_app, validate_file_path_posts.
  destruct (result_of (validate_file_path _ _)) as [path|]; [|reflexivity].
  rewrite trace_of_bind, posts_app.
  destruct (result_of (upload_document _ _ _ _ _ _ _ _)); simpl; by rewrite app_nil_r.
Qed.

Lemma posts_nil_no_post (t before after : list event) (r : Request) :
  posts t = [] → t ≠ before ++ EvPost r :: after.
Proof. intros Hposts ->. rewrite posts_app in Hposts. by destruct (posts before). Qed.

(** The trace of [main] begins with the banner and the events of the three
    validations, when these return. *)
Lemma main_trace_validated (w : world) (a : argparse.argv) (args : argparse.Namespace)
    (api_key : string) (path : Path) :
  let conf := validate_configuration (argparse.org_id args) (argparse.user_id args)
                (argparse.mentor_id args) in
  let key := load_api_key w (argparse.credentials args) in
  let file_ := validate_file_path w (argparse.file args) in
  result_of (parse_arguments a) = Ret args →
  result_of conf = Ret tt → result_of key = Ret api_key → result_of file_ = Ret path →
  (main_banner args ++ trace_of conf ++ trace_of key ++ trace_of file_)
    `prefix_of` trace_of (main w a).
Proof.
  intros conf key file_ Hparse Hconf Hkey Hfile.
  rewrite (main_parsed _ _ _ Hparse). cbn [trace_of snd].
  rewrite trace_of_try_except, main_try_cases. fold conf key file_.
  rewrite Hconf, Hkey, Hfile. cbv zeta.
  destruct (result_of (upload_document _ _ _ _ _ _ _ _)); cbn [result_of trace_of fst snd];
    eexists; rewrite <- !app_assoc; reflexivity.
Qed.



(** ** The API key and the log *)

Lemma load_api_key_log (w : world) (credential_file : string) :
  log_lines (trace_of (load_api_key w credential_file)) =
  match result_of (load_api_key w credential_file) with
  | Ret _ => [(INFO, "API key loaded successfully")]
  | Raise _ => []
  end.
Proof.
  rewrite load_api_key_cases.
  destruct (fs w _) as [nd|]; [|reflexivity].
  destruct (negb (readable nd)); [reflexivity|].
  destruct (bool_decide (kind nd = Directory)); [reflexivity|]. cbv zeta.
  destruct (bool_decide (_ = "")); [reflexivity|].
  destruct (_ <? 10)%nat; reflexivity.
Qed.

Lemma validate_file_path_agree (w1 w2 : world) (file_path : string) :
  option_Forall2 same_but_content (fs w1 (to_str (of_str file_path)))
                                  (fs w2 (to_str (of_str file_path))) →
  validate_file_path w1 file_path = validate_file_path w2 file_path.
Proof.
  intros Hfs. rewrite !validate_file_path_cases.
  destruct Hfs as [n1 n2 (Hk & Hr & Hs)|]; [|reflexivity].
  by rewrite Hk, Hr, Hs.
Qed.

Lemma open_agree (w1 w2 : world) (path : Path) :
  option_Forall2 same_but_content (fs w1 (to_str path)) (fs w2 (to_str path)) →
  (∃ e, result_of (open_ w1 path) = Raise e ∧ result_of (open_ w2 path) = Raise e)
  ∨ (∃ f1 f2, result_of (open_ w1 path) = Ret f1 ∧ result_of (open_ w2 path) = Ret f2).
Proof.
  intros Hfs. unfold open_, lookup_path.
  destruct Hfs as [n1 n2 (Hk & Hr & Hs)|]; simpl; [|eauto].
  rewrite Hk, Hr. destruct (readable n2); simpl; [|eauto].
  destruct (bool_decide (kind n2 = Directory)); simpl; eauto.
Qed.

(** The two uploads log the same and end the same, when the transport
    answers both the same. *)
Lemma upload_document_agree (w1 w2 : world) (org_id user_id mentor_id : string)
    (path : Path) (key1 key2 base_url : string) (timeout : Z) :
  let up1 := upload_document w1 org_id user_id mentor_id path key1 base_url timeout in
  let up2 := upload_document w2 org_id user_id mentor_id path key2 base_url timeout in
  option_Forall2 same_but_content (fs w1 (to_str path)) (fs w2 (to_str path)) →
  (∀ r1 r2, r1 ∈ posts (trace_of up1) → r2 ∈ posts (trace_of up2) → http w1 r1 = http w2 r2) →
  result_of up1 = result_of up2 ∧ log_lines (trace_of up1) = log_lines (trace_of up2).
Proof.
  intros up1 up2 Hfs Hhttp. subst up1 up2.
  destruct (open_agree _ _ _ Hfs) as [(e & H1 & H2) | (f1 & f2 & H1 & H2)].
  - rewrite (upload_document_not_opened _ _ _ _ _ _ _ _ _ H1),
            (upload_document_not_opened _ _ _ _ _ _ _ _ _ H2).
    split; reflexivity.
  - rewrite (upload_document_opened _ _ _ _ _ _ _ _ _ H1),
            (upload_document_opened _ _ _ _ _ _ _ _ _ H2) in Hhttp |- *.
    cbn [trace_of result_of fst snd] in Hhttp |- *.
    set (r1 := upload_request _ _ _ _ f1 key1 _ _) in *.
    set (r2 := upload_request _ _ _ _ f2 key2 _ _) in *.
    assert (Hsame : http w1 r1 = http w2 r2).
    { apply Hhttp; rewrite !posts_app; apply elem_of_app; right;
        apply elem_of_app; left; simpl; apply list_elem_of_here. }
    rewrite Hsame. split; [reflexivity|].
    rewrite !log_lines_app. reflexivity.
Qed.


Lemma demo_fs_with_differ (text1 text2 : string) (srv1 srv2 : Request → post_outcome) :
  differ_only_in_credentials (mkWorld (demo_fs_with text1) srv1)
                             (mkWorld (demo_fs_with text2) srv2) "api_credentials.txt".
Proof.
  intros p. change (to_str (of_str "api_credentials.txt")) with "api_credentials.txt".
  unfold demo_fs_with. simpl.
  repeat (case_bool_decide; [split; [by constructor|congruence]|]).
  split; [constructor|reflexivity].
Qed.



(** What the server sends back is logged as it is: a server that echoes the
    token puts it into the log. *)
Example echoed_key_is_logged :
  (ERROR, "Upload failed with status 403" +:+ NL +:+
          "Response: bad token: Api-Token sk-live-0123456789abcdef")
  ∈ log_lines (trace_of (main (mkWorld demo_fs echo_server) (demo_argv "doc.pdf" None))).
Proof.
  vm_compute. repeat (first [apply list_elem_of_here | apply list_elem_of_further]).
Qed.

(** ** The theorems at concrete inputs *)



Lemma validate_configuration_spec_demo :
  result_of (validate_configuration "syracuse" "jasidel" "abc-123") = Ret tt
  ∧ ∃ msg, filter is_warning
             (log_lines (trace_of (validate_configuration "syracuse" "jasidel" "abc-123")))
           = [(WARNING, msg)].
Proof.
  destruct (validate_configuration_spec "syracuse" "jasidel" "abc-123")
    as (Hok & _ & Hwarn & _).
  assert (Hret : result_of (validate_configuration "syracuse" "jasidel" "abc-123") = Ret tt)
    by (apply Hok; repeat split; discriminate).
  split; [exact Hret|]. apply Hwarn; [exact Hret|].
  intros [Hlen _]. vm_compute in Hlen. discriminate.
Defined.

(** * Further properties of [addFile.py] *)

(** ** The key that [load_api_key] returns *)

Lemma lstrip_head (s : string) :
  Py.lstrip s = "" ∨ ∃ c s', Py.lstrip s = String c s' ∧ Py.isspace c = false.
Proof.
  induction s as [|c s IH]; [by left|]. simpl.
  destruct (Py.isspace c) eqn:Hc; [exact IH|]. right. eauto.
Qed.

Lemma rstrip_idempotent (s : string) : Py.rstrip (Py.rstrip s) = Py.rstrip s.
Proof.
  induction s as [|c s IH]; [reflexivity|]. simpl.
  destruct (Py.rstrip s) as [|d r] eqn:Hr.
  - destruct (Py.isspace c) eqn:Hc; [reflexivity|]. simpl. by rewrite Hc.
  - change (Py.rstrip (String c (String d r))) with
      (match Py.rstrip (String d r) with
       | EmptyString => if Py.isspace c then EmptyString else String c EmptyString
       | r' => String c r'
       end).
    by rewrite IH.
Qed.

Lemma strip_idempotent (s : string) : Py.strip (Py.strip s) = Py.strip s.
Proof.
  unfold Py.strip.
  assert (Hl : Py.lstrip (Py.rstrip (Py.lstrip s)) = Py.rstrip (Py.lstrip s)).
  { destruct (lstrip_head s) as [-> | (c & s' & -> & Hc)]; [reflexivity|].
    simpl. destruct (Py.rstrip s'); rewrite ?Hc; simpl; rewrite ?Hc; reflexivity. }
  rewrite Hl. apply rstrip_idempotent.
Qed.

Lemma mem_lstrip (c : ascii) (s : string) : Py.mem c s = false → Py.mem c (Py.lstrip s) = false.
Proof.
  induction s as [|d s IH]; [done|]. simpl.
  destruct (decide (d = c)); [discriminate|]. intros Hs.
  destruct (Py.isspace d); [by apply IH|]. simpl. by rewrite decide_False.
Qed.

Lemma mem_rstrip (c : ascii) (s : string) : Py.mem c s = false → Py.mem c (Py.rstrip s) = false.
Proof.
  induction s as [|d s IH]; [done|]. simpl.
  destruct (decide (d = c)) as [|Hd]; [discriminate|]. intros Hs. specialize (IH Hs).
  destruct (Py.rstrip s) as [|e r].
  - destruct (Py.isspace d); [reflexivity|]. simpl. by rewrite decide_False.
  - simpl in *. by rewrite decide_False.
Qed.

Lemma mem_first_line (s : string) :
  Py.mem Py.LF (first_line s) = false ∧ Py.mem Py.CR (first_line s) = false.
Proof.
  induction s as [|c s [IH1 IH2]]; [done|]. simpl.
  destruct (decide (c = Py.LF ∨ c = Py.CR)) as [|Hc]; [done|]. simpl.
  rewrite !decide_False by tauto. done.
Qed.

(** X1. A key that [load_api_key] returns has at least 10 characters, no
    white space at either end, and no line feed or carriage return anywhere:
    it is fit to stand in a header line. *)
Theorem load_api_key_returns_clean_key (w : world) (credential_file api_key : string) :
  result_of (load_api_key w credential_file) = Ret api_key →
  (10 ≤ String.length api_key)%nat
  ∧ Py.strip api_key = api_key
  ∧ Py.mem Py.LF api_key = false
  ∧ Py.mem Py.CR api_key = false.
Proof.
  rewrite load_api_key_cases.
  destruct (fs w _) as [nd|]; [|discriminate].
  destruct (negb (readable nd)); [discriminate|].
  destruct (bool_decide (kind nd = Directory)); [discriminate|]. cbv zeta.
  destruct (bool_decide (_ = "")); [discriminate|].
  destruct (Nat.ltb_spec (String.length (Py.strip (first_line (content nd)))) 10);
    [discriminate|].
  intros [= <-]. destruct (mem_first_line (content nd)) as [Hlf Hcr].
  split_and!; [assumption|apply strip_idempotent| |];
    unfold Py.strip; by apply mem_rstrip, mem_lstrip.
Qed.

Lemma load_api_key_returns_clean_key_demo :
  (10 ≤ String.length demo_key)%nat
  ∧ Py.strip demo_key = demo_key
  ∧ Py.mem Py.LF demo_key = false
  ∧ Py.mem Py.CR demo_key = false.
Proof.
  apply (load_api_key_returns_clean_key demo_world "api_credentials.txt"). reflexivity.
Defined.

(** ** What leaves [upload_document] *)

Lemma open_raises_IOError (w : world) (path : Path) (e : exn) :
  result_of (open_ w path) = Raise e → ∃ msg, e = IOError msg.
Proof.
  unfold open_, lookup_path. destruct (fs w (to_str path)) as [nd|]; simpl.
  - destruct (negb (readable nd)); simpl; [intros [= <-]; eauto|].
    destruct (bool_decide (kind nd = Directory)); simpl; [intros [= <-]; eauto|discriminate].
  - intros [= <-]; eauto.
Qed.

Lemma open_cases (w : world) (path : Path) :
  (∃ f, result_of (open_ w path) = Ret f) ∨ (∃ e, result_of (open_ w path) = Raise e).
Proof. destruct (result_of (open_ w path)); eauto. Qed.



(** ** The requests of a run *)

Lemma fs_calls_app (t t' : list event) : fs_calls (t ++ t') = fs_calls t ++ fs_calls t'.
Proof. apply omap_app. Qed.

Lemma upload_document_posts (w : world) (org_id user_id mentor_id : string)
    (path : Path) (api_key base_url : string) (timeout : Z) :
  posts (trace_of (upload_document w org_id user_id mentor_id path api_key base_url timeout)) =
  match result_of (open_ w path) with
  | Ret f => [upload_request org_id user_id mentor_id path f api_key base_url timeout]
  | Raise _ => []
  end.
Proof.
  destruct (result_of (open_ w path)) as [f|e] eqn:Hopen.
  - rewrite (upload_document_opened _ _ _ _ _ _ _ _ _ Hopen). cbn [trace_of snd].
    rewrite !posts_app, (proj1 (upload_prelude_quiet _ _ _ _)),
      (proj1 (classify_quiet _ _)). reflexivity.
  - rewrite (upload_document_not_opened _ _ _ _ _ _ _ _ _ Hopen). cbn [trace_of snd].
    rewrite !posts_app, (proj1 (upload_prelude_quiet _ _ _ _)). reflexivity.
Qed.

Lemma main_unparsed (w : world) (a : argparse.argv) :
  (∀ args, result_of (parse_arguments a) ≠ Ret args) →
  ∃ msg, main w a = (Raise (SystemExit 2), [EvStderr msg]).
Proof.
  intros Hno. pose proof (main_cases w a) as Hmain.
  destruct (parse_arguments_cases a) as [(args & Ha & _) | (msg & Ha & _)].
  - destruct (Hno args). by rewrite Ha.
  - rewrite Ha in Hmain. eauto.
Qed.

Lemma parsed_or_not (a : argparse.argv) :
  (∃ args, result_of (parse_arguments a) = Ret args)
  ∨ (∀ args, result_of (parse_arguments a) ≠ Ret args).
Proof.
  destruct (result_of (parse_arguments a)) as [args|e]; [left; eauto|right; discriminate].
Qed.

(** X3. Whatever the command line, the file system and the server, [main]
    sends at most one request: nothing is retried. *)
Theorem main_sends_at_most_one_request (w : world) (a : argparse.argv) :
  (List.length (posts (trace_of (main w a))) ≤ 1)%nat.
Proof.
  destruct (parsed_or_not a) as [[args Hparse] | Hno].
  - rewrite (main_posts _ _ _ Hparse), main_try_posts.
    destruct (result_of (validate_configuration _ _ _)); [|simpl; lia].
    destruct (result_of (load_api_key _ _)); [|simpl; lia].
    destruct (result_of (validate_file_path _ _)); [|simpl; lia].
    rewrite upload_document_posts. destruct (result_of (open_ _ _)); simpl; lia.
  - destruct (main_unparsed w a Hno) as [msg ->]. simpl. lia.
Qed.

(** X4. [main] never lets an exception other than [SystemExit] out, and
    the only values it returns are 0, 1 and 130. *)
Theorem main_returns_or_exits (w : world) (a : argparse.argv) :
  (∃ n, result_of (main w a) = Ret n ∧ (n = 0 ∨ n = 1 ∨ n = 130))
  ∨ (∃ code, result_of (main w a) = Raise (SystemExit code)).
Proof.
  destruct (parsed_or_not a) as [[args Hparse] | Hno].
  - rewrite (main_result _ _ _ Hparse).
    destruct (result_of (main_try w args)) as [n|e] eqn:Hbody.
    + left. exists n. rewrite (main_try_returns_0 _ _ _ Hbody). auto.
    + destruct e; simpl; eauto 6.
  - right. destruct (main_unparsed w a Hno) as [msg ->]. eauto.
Qed.

Lemma validate_file_path_returns (w : world) (file_path : string) (path : Path) :
  result_of (validate_file_path w file_path) = Ret path → path = of_str file_path.
Proof.
  rewrite validate_file_path_cases.
  destruct (fs w _) as [nd|]; [|discriminate].
  destruct (negb (bool_decide _)); [discriminate|].
  destruct (negb (readable nd)); [discriminate|].
  destruct (max_size <? _); [discriminate|].
  destruct (_ =? 0); [discriminate|]. by intros [= <-].
Qed.

Lemma classify_returns (timeout : Z) (po : post_outcome) (v : json) :
  result_of (classify timeout po) = Ret v →
  ∃ resp items, po = Responded resp
    ∧ (status_code resp = 200 ∨ status_code resp = 201)
    ∧ body_json resp = JsonOk (JObj items) ∧ v = JObj items.
Proof.
  destruct po as [resp|e]; simpl.
  - destruct (bool_decide (status_code resp = 200)) eqn:H200;
      [|destruct (bool_decide (status_code resp = 201)) eqn:H201]; simpl;
      try discriminate.
    all: destruct (body_json resp) as [[]|] eqn:Hbody; try discriminate.
    all: intros [= <-]; exists resp; eexists; split_and!; try done.
    + left. by apply bool_decide_eq_true in H200.
    + right. by apply bool_decide_eq_true in H201.
  - destruct e; discriminate.
Qed.

(** X5. [main] returns 0 only after an accepted upload: exactly one request
    was sent, the server answered it with status 200 or 201 and a JSON object,
    and the log ends with the closing banner. *)
Theorem main_success_means_accepted_upload (w : world) (a : argparse.argv) :
  result_of (main w a) = Ret 0 →
  ∃ r resp items,
    posts (trace_of (main w a)) = [r]
    ∧ http w r = Responded resp
    ∧ (status_code resp = 200 ∨ status_code resp = 201)
    ∧ body_json resp = JsonOk (JObj items)
    ∧ ∃ before, log_lines (trace_of (main w a)) =
                before ++ [(INFO, Py.times "=" 60);
                           (INFO, "Script completed successfully!");
                           (INFO, Py.times "=" 60)].
Proof.
  intros Hmain.
  destruct (parsed_or_not a) as [[args Hparse] | Hno].
  2: { destruct (main_unparsed w a Hno) as [msg Hm]. rewrite Hm in Hmain. discriminate. }
  rewrite (main_result _ _ _ Hparse) in Hmain.
  rewrite (main_posts _ _ _ Hparse), main_try_posts.
  rewrite (main_parsed _ _ _ Hparse). cbn [trace_of snd].
  rewrite trace_of_try_except. revert Hmain. rewrite main_try_cases. cbv zeta.
  destruct (result_of (validate_configuration _ _ _)) as [[]|e];
    [|by destruct e].
  destruct (result_of (load_api_key _ _)) as [api_key|e]; [|by destruct e].
  destruct (result_of (validate_file_path _ _)) as [path|e] eqn:Hfile; [|by destruct e].
  destruct (open_validated _ _ _ Hfile) as (nd & _ & Hopen).
  rewrite upload_document_posts, Hopen.
  rewrite (upload_document_opened _ _ _ _ _ _ _ _ _ Hopen). cbn [result_of trace_of fst snd].
  destruct (classify _ _) as [[v|e] tc] eqn:Hclassify; cbn [result_of trace_of fst snd];
    [|by destruct e].
  intros _.
  pose proof (f_equal result_of Hclassify) as Hres. cbn [result_of fst] in Hres.
  apply classify_returns in Hres as (resp & items & Hhttp & Hst & Hb & _).
  eexists _, resp, items. split_and!; try done.
  rewrite app_nil_r, !app_assoc, log_lines_app. eexists. reflexivity.
Qed.

Lemma main_success_means_accepted_upload_demo :
  ∃ r resp items,
    posts (trace_of (main demo_world (demo_argv "doc.pdf" None))) = [r]
    ∧ http demo_world r = Responded resp
    ∧ (status_code resp = 200 ∨ status_code resp = 201)
    ∧ body_json resp = JsonOk (JObj items)
    ∧ ∃ before, log_lines (trace_of (main demo_world (demo_argv "doc.pdf" None))) =
                before ++ [(INFO, Py.times "=" 60);
                           (INFO, "Script completed successfully!");
                           (INFO, Py.times "=" 60)].
Proof.
  apply (main_success_means_accepted_upload demo_world (demo_argv "doc.pdf" None)).
  vm_compute. reflexivity.
Defined.

(** ** The files a run touches *)

Lemma load_api_key_fs_calls (w : world) (credential_file : string) :
  let c := to_str (of_str credential_file) in
  fs_calls (trace_of (load_api_key w credential_file)) `prefix_of` [(Exists, c); (Open, c)]
  ∧ (∀ api_key, result_of (load_api_key w credential_file) = Ret api_key →
     fs_calls (trace_of (load_api_key w credential_file)) = [(Exists, c); (Open, c)]).
Proof.
  intros c. subst c. rewrite load_api_key_cases.
  destruct (fs w _) as [nd|]; [|split; [by eexists|discriminate]].
  destruct (negb (readable nd)); [split; [by exists []|discriminate]|].
  destruct (bool_decide (kind nd = Directory)); [split; [by exists []|discriminate]|].
  cbv zeta. destruct (bool_decide (_ = "")); [split; [by exists []|discriminate]|].
  destruct (_ <? 10)%nat; split; try discriminate; try (by exists []); reflexivity.
Qed.

Lemma validate_file_path_fs_calls (w : world) (file_path : string) :
  let f := to_str (of_str file_path) in
  fs_calls (trace_of (validate_file_path w file_path))
    `prefix_of` [(Exists, f); (IsFile, f); (Access, f); (Stat, f)]
  ∧ (∀ path, result_of (validate_file_path w file_path) = Ret path →
     fs_calls (trace_of (validate_file_path w file_path))
     = [(Exists, f); (IsFile, f); (Access, f); (Stat, f)]).
Proof.
  intros f. subst f. rewrite validate_file_path_cases.
  destruct (fs w _) as [nd|]; [|split; [by eexists|discriminate]].
  destruct (negb (bool_decide _)); [split; [by eexists|discriminate]|].
  destruct (negb (readable nd)); [split; [by eexists|discriminate]|].
  destruct (max_size <? _); [split; [by exists []|discriminate]|].
  destruct (_ =? 0); split; try discriminate; try (by exists []); reflexivity.
Qed.

Lemma upload_document_fs_calls (w : world) (org_id user_id mentor_id : string)
    (path : Path) (api_key base_url : string) (timeout : Z) :
  fs_calls (trace_of (upload_document w org_id user_id mentor_id path api_key base_url
                        timeout)) = [(Open, to_str path)].
Proof.
  destruct (open_cases w path) as [[f Hopen] | [e Hopen]].
  - rewrite (upload_document_opened _ _ _ _ _ _ _ _ _ Hopen). cbn [trace_of snd].
    rewrite !fs_calls_app, (proj2 (upload_prelude_quiet _ _ _ _)),
      (proj1 (proj2 (classify_quiet _ _))). reflexivity.
  - rewrite (upload_document_not_opened _ _ _ _ _ _ _ _ _ Hopen). cbn [trace_of snd].
    rewrite !fs_calls_app, (proj2 (upload_prelude_quiet _ _ _ _)). reflexivity.
Qed.

Lemma main_except_fs_calls (e : exn) : fs_calls (trace_of (main_except e)) = [].
Proof. destruct e; reflexivity. Qed.

Lemma main_banner_fs_calls (args : argparse.Namespace) : fs_calls (main_banner args) = [].
Proof. unfold main_banner. destruct (argparse.verbose args); reflexivity. Qed.

Lemma main_fs_calls (w : world) (a : argparse.argv) (args : argparse.Namespace) :
  result_of (parse_arguments a) = Ret args →
  fs_calls (trace_of (main w a)) = fs_calls (trace_of (main_try w args)).
Proof.
  intros Hparse. rewrite (main_parsed _ _ _ Hparse). cbn [trace_of snd].
  rewrite trace_of_try_except, !fs_calls_app, main_banner_fs_calls.
  destruct (result_of (main_try w args)); [by rewrite app_nil_r|].
  by rewrite main_except_fs_calls, app_nil_r.
Qed.

(** The file system calls of the body of [main], stage by stage. *)
Lemma main_try_fs_calls (w : world) (args : argparse.Namespace) :
  let conf := validate_configuration (argparse.org_id args) (argparse.user_id args)
                (argparse.mentor_id args) in
  let key := load_api_key w (argparse.credentials args) in
  let file_ := validate_file_path w (argparse.file args) in
  fs_calls (trace_of (main_try w args)) =
  match result_of conf with
  | Raise _ => []
  | Ret _ =>
    fs_calls (trace_of key) ++
    match result_of key with
    | Raise _ => []
    | Ret _ =>
      fs_calls (trace_of file_) ++
      match result_of file_ with
      | Raise _ => []
      | Ret path => [(Open, to_str path)]
      end
    end
  end.
Proof.
  intros conf key file_. rewrite main_try_cases. fold conf key file_. cbv zeta.
  pose proof (proj2 (validate_configuration_quiet (argparse.org_id args)
                       (argparse.user_id args) (argparse.mentor_id args))) as Hconf.
  fold conf in Hconf.
  destruct (result_of conf); cbn [trace_of snd]; [|exact Hconf].
  destruct (result_of key); cbn [trace_of snd];
    [|by rewrite fs_calls_app, Hconf, app_nil_r].
  destruct (result_of file_) as [path|]; cbn [trace_of snd];
    [|by rewrite !fs_calls_app, Hconf, app_nil_r].
  destruct (result_of (upload_document _ _ _ _ _ _ _ _)); cbn [trace_of snd];
    rewrite !fs_calls_app, Hconf, upload_document_fs_calls; reflexivity.
Qed.

(** X6. The file system calls of [main] are always a beginning of one
    fixed sequence: existence and opening of the credential file, then
    existence, kind, permission and size of the target file, then its
    opening. So [main] touches no other path, reads the credential file at
    most once, and opens the target file at most once and only after it has
    passed validation. Without parsed arguments it touches nothing. *)
Theorem main_fs_calls_follow_the_plan (w : world) (a : argparse.argv) :
  (∀ args, result_of (parse_arguments a) = Ret args →
     fs_calls (trace_of (main w a)) `prefix_of` main_fs_plan args)
  ∧ ((∀ args, result_of (parse_arguments a) ≠ Ret args) →
     fs_calls (trace_of (main w a)) = []).
Proof.
  split.
  - intros args Hparse. rewrite (main_fs_calls _ _ _ Hparse), main_try_fs_calls.
    unfold main_fs_plan. cbv zeta.
    destruct (result_of (validate_configuration _ _ _)); [|by eexists].
    destruct (load_api_key_fs_calls w (argparse.credentials args)) as [Hk Hk'].
    destruct (validate_file_path_fs_calls w (argparse.file args)) as [Hf Hf'].
    destruct (result_of (load_api_key _ _)) as [api_key|].
    2: { rewrite app_nil_r. destruct Hk as [k Hk]. simpl in Hk.
         exists (k ++ [(Exists, to_str (of_str (argparse.file args)));
                       (IsFile, to_str (of_str (argparse.file args)));
                       (Access, to_str (of_str (argparse.file args)));
                       (Stat, to_str (of_str (argparse.file args)));
                       (Open, to_str (of_str (argparse.file args)))]).
         rewrite app_assoc, <- Hk. reflexivity. }
    rewrite (Hk' api_key eq_refl).
    apply (prefix_app [_; _]).
    destruct (result_of (validate_file_path _ _)) as [path|] eqn:Hfile.
    + rewrite (Hf' path eq_refl), (validate_file_path_returns _ _ _ Hfile). by exists [].
    + rewrite app_nil_r. destruct Hf as [k Hf].
      exists (k ++ [(Open, to_str (of_str (argparse.file args)))]).
      rewrite app_assoc, <- Hf. reflexivity.
  - intros Hno. destruct (main_unparsed w a Hno) as [msg ->]. reflexivity.
Qed.

Lemma main_fs_calls_follow_the_plan_demo :
  fs_calls (trace_of (main demo_world (demo_argv "big.pdf" None)))
    `prefix_of` main_fs_plan (demo_args "big.pdf").
Proof.
  apply (proj1 (main_fs_calls_follow_the_plan demo_world (demo_argv "big.pdf" None))).
  reflexivity.
Defined.

Lemma validate_configuration_empty (org_id user_id mentor_id : string) :
  org_id = "" ∨ user_id = "" ∨ mentor_id = "" →
  ∃ msg, validate_configuration org_id user_id mentor_id = (Raise (ConfigurationError msg), []).
Proof.
  intros H. unfold validate_configuration.
  repeat (case_bool_decide; [eexists; reflexivity|]). tauto.
Qed.

(** X7. Validation stops at the first failure. With an empty organisation,
    user or pathway id, [main] returns 1 without any file system call or
    request: the credential file is not even looked for. When
    [load_api_key] raises, [main] returns 1 having touched the credential
    file only, and without any request. *)
Theorem main_stops_at_first_failure (w : world) (a : argparse.argv)
    (args : argparse.Namespace) :
  result_of (parse_arguments a) = Ret args →
  (argparse.org_id args = "" ∨ argparse.user_id args = "" ∨ argparse.mentor_id args = "" →
   result_of (main w a) = Ret 1
   ∧ fs_calls (trace_of (main w a)) = []
   ∧ posts (trace_of (main w a)) = [])
  ∧ (∀ e, result_of (load_api_key w (argparse.credentials args)) = Raise e →
     result_of (main w a) = Ret 1
     ∧ fs_calls (trace_of (main w a))
         `prefix_of` [(Exists, to_str (of_str (argparse.credentials args)));
                      (Open, to_str (of_str (argparse.credentials args)))]
     ∧ posts (trace_of (main w a)) = []).
Proof.
  intros Hparse.
  rewrite (main_result _ _ _ Hparse), (main_fs_calls _ _ _ Hparse),
    (main_posts _ _ _ Hparse), main_try_posts, main_try_fs_calls, main_try_cases.
  cbv zeta. split.
  - intros Hempty.
    destruct (validate_configuration_empty _ _ _ Hempty) as [msg ->]. done.
  - intros e Hkey.
    destruct (load_api_key_result w (argparse.credentials args)) as [[k Hk] | [msg Hk]];
      rewrite Hk in Hkey; [discriminate|]. injection Hkey as <-.
    destruct (validate_configuration_result (argparse.org_id args) (argparse.user_id args)
                (argparse.mentor_id args)) as [-> | [msg' ->]].
    + rewrite Hk, app_nil_r. cbn [result_of fst].
      split_and!; [reflexivity| |reflexivity].
      apply (proj1 (load_api_key_fs_calls w (argparse.credentials args))).
    + cbn [result_of fst]. split_and!; [reflexivity|by eexists|reflexivity].
Qed.

Lemma main_stops_at_first_failure_demo :
  let a := argparse.mkArgv None (Some "") (Some "pathway") (Some "doc.pdf") None None None
             false in
  result_of (main demo_world a) = Ret 1
  ∧ fs_calls (trace_of (main demo_world a)) = []
  ∧ posts (trace_of (main demo_world a)) = [].
Proof.
  intros a.
  apply (proj1 (main_stops_at_first_failure demo_world a
                  (argparse.mkNamespace "syracuse" "" "pathway" "doc.pdf"
                     "api_credentials.txt" "https://base.manager.ai.syr.edu" 300 false)
                  eq_refl)).
  right. left. reflexivity.
Defined.

(** ** What a request of [main] holds *)

Lemma load_api_key_returns (w : world) (credential_file api_key : string) :
  result_of (load_api_key w credential_file) = Ret api_key →
  ∃ nd, fs w (to_str (of_str credential_file)) = Some nd
        ∧ api_key = Py.strip (first_line (content nd)).
Proof.
  rewrite load_api_key_cases.
  destruct (fs w _) as [nd|]; [|discriminate].
  destruct (negb (readable nd)); [discriminate|].
  destruct (bool_decide (kind nd = Directory)); [discriminate|]. cbv zeta.
  destruct (bool_decide (_ = "")); [discriminate|].
  destruct (_ <? 10)%nat; [discriminate|]. intros [= <-]. eauto.
Qed.

Lemma validate_file_path_accepts (w : world) (file_path : string) (path : Path) :
  result_of (validate_file_path w file_path) = Ret path →
  ∃ nd, fs w (to_str (of_str file_path)) = Some nd
        ∧ kind nd = Regular ∧ readable nd = true
        ∧ (1 ≤ st_size nd ≤ 104857600)%N.
Proof.
  rewrite validate_file_path_cases. unfold max_size.
  destruct (fs w _) as [nd|]; [|discriminate].
  case_bool_decide; simpl; [|discriminate].
  destruct (readable nd) eqn:Hr; simpl; [|discriminate].
  destruct (Z.ltb_spec (100 * 1024 * 1024) (Z.of_N (st_size nd))); [discriminate|].
  destruct (Z.eqb_spec (Z.of_N (st_size nd)) 0); [discriminate|].
  intros _. exists nd. split_and!; try done; lia.
Qed.

Lemma split_no_separator (c : ascii) (s : string) :
  Forall (λ x, Py.mem c x = false) (Py.split c s).
Proof.
  induction s as [|d s IH]; simpl; [by repeat constructor|].
  destruct (decide (d = c)) as [->|Hd]; [by constructor|].
  destruct (Py.split c s) as [|x l].
  { constructor; [simpl; by rewrite decide_False|constructor]. }
  inversion IH; subst. constructor; [|assumption]. simpl. by rewrite decide_False.
Qed.

Lemma name_no_separator (s : string) : Py.mem "/" (name (of_str s)) = false.
Proof.
  unfold name, of_str. cbn [parts].
  pose proof (split_no_separator "/" (lstrip_sep s)) as H.
  induction H as [|x l Hx Hl IH]; [reflexivity|].
  rewrite filter_cons. destruct (decide (keep_part x = true)); [|exact IH].
  simpl. destruct (filter _ l); [exact Hx|exact IH].
Qed.

(** X8. Every request that [main] sends is made of validated values: the
    three ids are not empty, the timeout is at least 1, the token is the
    trimmed first line of the credential file, the stream is the content of a
    readable regular file of 1 to 104,857,600 bytes, and the file name sent
    holds no directory separator. *)
Theorem main_request_is_validated (w : world) (a : argparse.argv) (r : Request) :
  r ∈ posts (trace_of (main w a)) →
  ∃ args credentials_node file_node,
    result_of (parse_arguments a) = Ret args
    ∧ fs w (to_str (of_str (argparse.credentials args))) = Some credentials_node
    ∧ fs w (to_str (of_str (argparse.file args))) = Some file_node
    ∧ r = upload_request (argparse.org_id args) (argparse.user_id args)
            (argparse.mentor_id args) (of_str (argparse.file args)) (content file_node)
            (Py.strip (first_line (content credentials_node)))
            (argparse.base_url args) (argparse.timeout args)
    ∧ argparse.org_id args ≠ "" ∧ argparse.user_id args ≠ ""
    ∧ argparse.mentor_id args ≠ ""
    ∧ 1 ≤ timeout r
    ∧ kind file_node = Regular ∧ readable file_node = true
    ∧ (1 ≤ st_size file_node ≤ 104857600)%N
    ∧ Py.mem "/" (name (of_str (argparse.file args))) = false.
Proof.
  intros Hr.
  destruct (parse_arguments_cases a) as [(args & Ha & Hge & _) | (msg & Ha & _)].
  2: { pose proof (main_cases w a) as Hmain. rewrite Ha in Hmain. rewrite Hmain in Hr.
       by apply elem_of_nil in Hr. }
  assert (Hparse : result_of (parse_arguments a) = Ret args) by (by rewrite Ha).
  rewrite (main_posts _ _ _ Hparse), main_try_posts in Hr.
  destruct (result_of (validate_configuration _ _ _)) as [[]|] eqn:Hconf;
    [|by apply elem_of_nil in Hr].
  destruct (result_of (load_api_key _ _)) as [api_key|] eqn:Hkey;
    [|by apply elem_of_nil in Hr].
  destruct (result_of (validate_file_path _ _)) as [path|] eqn:Hfile;
    [|by apply elem_of_nil in Hr].
  destruct (load_api_key_returns _ _ _ Hkey) as (ndc & Hc & ->).
  destruct (validate_file_path_accepts _ _ _ Hfile) as (ndf & Hf & Hkind & Hread & Hsize).
  destruct (open_validated _ _ _ Hfile) as (ndf' & Hf' & Hopen).
  pose proof (validate_file_path_returns _ _ _ Hfile) as ->.
  rewrite Hf in Hf'. injection Hf' as <-.
  rewrite upload_document_posts, Hopen in Hr. apply list_elem_of_singleton in Hr as ->.
  exists args, ndc, ndf. destruct Hsize.
  split_and!; try done; try apply name_no_separator.
  all: intros Hempty;
    destruct (validate_configuration_empty (argparse.org_id args) (argparse.user_id args)
                (argparse.mentor_id args)) as [msg Hm]; [tauto|];
    rewrite Hm in Hconf; discriminate.
Qed.

Lemma main_request_is_validated_demo :
  ∃ args credentials_node file_node,
    result_of (parse_arguments (demo_argv "doc.pdf" None)) = Ret args
    ∧ fs demo_world (to_str (of_str (argparse.credentials args))) = Some credentials_node
    ∧ fs demo_world (to_str (of_str (argparse.file args))) = Some file_node
    ∧ upload_request "syracuse" "jasidel" "25223e76-fc94-4cc2-aec1-f9fb51f0c2bf"
        (of_str "doc.pdf") "%PDF-1.4" demo_key "https://base.manager.ai.syr.edu" 300
      = upload_request (argparse.org_id args) (argparse.user_id args)
            (argparse.mentor_id args) (of_str (argparse.file args)) (content file_node)
            (Py.strip (first_line (content credentials_node)))
            (argparse.base_url args) (argparse.timeout args)
    ∧ argparse.org_id args ≠ "" ∧ argparse.user_id args ≠ ""
    ∧ argparse.mentor_id args ≠ ""
    ∧ 1 ≤ 300
    ∧ kind file_node = Regular ∧ readable file_node = true
    ∧ (1 ≤ st_size file_node ≤ 104857600)%N
    ∧ Py.mem "/" (name (of_str (argparse.file args))) = false.
Proof.
  apply (main_request_is_validated demo_world (demo_argv "doc.pdf" None)
           (upload_request "syracuse" "jasidel" "25223e76-fc94-4cc2-aec1-f9fb51f0c2bf"
              (of_str "doc.pdf") "%PDF-1.4" demo_key "https://base.manager.ai.syr.edu" 300)).
  vm_compute. apply list_elem_of_here.
Defined.

(** ** The log and the result *)

Lemma validate_configuration_no_error (org_id user_id mentor_id : string) :
  filter is_error (log_lines (trace_of (validate_configuration org_id user_id mentor_id))) = [].
Proof.
  unfold validate_configuration. repeat (case_bool_decide; [reflexivity|]).
  destruct (negb _ || negb _); reflexivity.
Qed.

Lemma load_api_key_no_error (w : world) (credential_file : string) :
  filter is_error (log_lines (trace_of (load_api_key w credential_file))) = [].
Proof. rewrite load_api_key_log. by destruct (result_of _). Qed.

Lemma validate_file_path_no_error (w : world) (file_path : string) :
  filter is_error (log_lines (trace_of (validate_file_path w file_path))) = [].
Proof.
  rewrite validate_file_path_cases.
  destruct (fs w _) as [nd|]; [|reflexivity].
  destruct (negb (bool_decide _)); [reflexivity|].
  destruct (negb (readable nd)); [reflexivity|].
  destruct (max_size <? _); [reflexivity|].
  destruct (_ =? 0); reflexivity.
Qed.

Lemma upload_document_no_error (w : world) (org_id user_id mentor_id : string)
    (path : Path) (api_key base_url : string) (timeout : Z) (v : json) :
  let run := upload_document w org_id user_id mentor_id path api_key base_url timeout in
  result_of run = Ret v → filter is_error (log_lines (trace_of run)) = [].
Proof.
  intros run. subst run.
  destruct (open_cases w path) as [[f Hopen] | [e Hopen]].
  2: { rewrite (upload_document_not_opened _ _ _ _ _ _ _ _ _ Hopen). discriminate. }
  rewrite (upload_document_opened _ _ _ _ _ _ _ _ _ Hopen). cbn [result_of trace_of fst snd].
  intros Hres. rewrite !log_lines_app, !filter_app.
  assert (Hprelude : filter is_error (log_lines (upload_prelude org_id user_id path base_url))
                     = []) by (unfold upload_prelude; by destruct (bool_decide _)).
  rewrite Hprelude. clear Hprelude. simpl.
  destruct (http w _) as [resp|e]; simpl in *; [|by destruct e].
  destruct (_ || _); [|discriminate].
  destruct (body_json resp) as [[]|]; try discriminate. reflexivity.
Qed.

Lemma main_banner_no_error (args : argparse.Namespace) :
  filter is_error (log_lines (main_banner args)) = [].
Proof. unfold main_banner. by destruct (argparse.verbose args). Qed.

(** X9. The log tells how the run ended. When [main] returns 0 the log
    holds no ERROR record; when it returns 1 the last record of the log is an
    ERROR record; when it returns 130 the last record is the warning that the
    script was interrupted. *)
Theorem main_log_tells_the_result (w : world) (a : argparse.argv) :
  let log := log_lines (trace_of (main w a)) in
  (result_of (main w a) = Ret 0 → filter is_error log = [])
  ∧ (result_of (main w a) = Ret 1 → ∃ before msg, log = before ++ [(ERROR, msg)])
  ∧ (result_of (main w a) = Ret 130 →
     ∃ before, log = before ++ [(WARNING, NL +:+ "Script interrupted by user")]).
Proof.
  intros log. subst log.
  destruct (parsed_or_not a) as [[args Hparse] | Hno].
  2: { destruct (main_unparsed w a Hno) as [msg ->]. split_and!; discriminate. }
  rewrite (main_result _ _ _ Hparse), (main_parsed _ _ _ Hparse). cbn [trace_of snd].
  rewrite trace_of_try_except, !log_lines_app.
  destruct (result_of (main_try w args)) as [n|e] eqn:Hbody.
  - pose proof (main_try_returns_0 _ _ _ Hbody) as ->.
    split_and!; try discriminate. intros _. revert Hbody.
    rewrite main_try_cases. cbv zeta.
    destruct (result_of (validate_configuration _ _ _)) as [[]|]; [|discriminate].
    destruct (result_of (load_api_key _ _)) as [api_key|]; [|discriminate].
    destruct (result_of (validate_file_path _ _)) as [path|]; [|discriminate].
    destruct (result_of (upload_document _ _ _ _ _ _ _ _)) as [v|] eqn:Hup; [|discriminate].
    intros _. cbn [trace_of snd].
    rewrite !log_lines_app, !filter_app, main_banner_no_error,
      validate_configuration_no_error, load_api_key_no_error, validate_file_path_no_error,
      (upload_document_no_error _ _ _ _ _ _ _ _ _ Hup). reflexivity.
  - destruct e; simpl; split_and!; try discriminate; intros _;
      rewrite ?app_assoc; eauto.
    eexists (_ ++ [_]), _. rewrite <- (app_assoc _ [_] [_]). reflexivity.
Qed.

Lemma main_log_tells_the_result_demo :
  filter is_error (log_lines (trace_of (main demo_world (demo_argv "doc.pdf" None)))) = []
  ∧ ∃ before msg,
      log_lines (trace_of (main demo_world (demo_argv "big.pdf" None)))
      = before ++ [(ERROR, msg)].
Proof.
  split.
  - apply (proj1 (main_log_tells_the_result demo_world (demo_argv "doc.pdf" None))).
    vm_compute. reflexivity.
  - apply (proj1 (proj2 (main_log_tells_the_result demo_world (demo_argv "big.pdf" None)))).
    vm_compute. reflexivity.
Defined.

(** * Properties of the two short scripts *)

Arguments Scripts.step_7 : simpl never.
Arguments Scripts.step_6_except : simpl never.

Lemma script_opening_cases (w : Scripts.world) (path : string) :
  Scripts.open_ w path = (Scripts.opening w path, [Scripts.Fs Open path])
  ∧ match Scripts.fs w path with
    | None => ∃ msg, Scripts.opening w path = Scripts.Raises (Scripts.FileNotFoundError msg)
    | Some nd =>
        (Scripts.opens w path nd ∧ Scripts.opening w path = Scripts.Returns (content nd))
        ∨ (¬ Scripts.opens w path nd
           ∧ ∃ msg, Scripts.opening w path = Scripts.Raises (Scripts.PermissionError msg)
                    ∨ Scripts.opening w path = Scripts.Raises (Scripts.IsADirectoryError msg))
    end.
Proof.
  unfold Scripts.opening, Scripts.open_, Scripts.opens.
  destruct (Scripts.fs w path) as [nd|]; simpl; [|split; [reflexivity|eauto]].
  destruct (readable nd) eqn:Hr; simpl.
  - case_bool_decide as Hk; simpl; (split; [reflexivity|]).
    + right. split; [tauto|eauto].
    + left. done.
  - split; [reflexivity|]. right. split; [intros (_ & ? & _); discriminate|eauto].
Qed.

Lemma script_opens (w : Scripts.world) (path : string) (nd : node) :
  Scripts.opens w path nd → Scripts.opening w path = Scripts.Returns (content nd).
Proof.
  intros (Hfs & Hr & Hk). unfold Scripts.opening, Scripts.open_. rewrite Hfs. simpl.
  rewrite Hr. simpl. by rewrite bool_decide_eq_false_2.
Qed.

(** The simple script, by what [open] gives for its two files. *)
Lemma simple_cases (s : Scripts.settings) (w : Scripts.world) :
  Scripts.simple_train_mentor_with_file s w =
  match Scripts.opening w "api_credentials.txt" with
  | Scripts.Raises e => (Scripts.Raises e, [Scripts.Fs Open "api_credentials.txt"])
  | Scripts.Returns credentials =>
    match Scripts.opening w (Scripts.file_path s) with
    | Scripts.Raises e =>
        (Scripts.Raises e,
         [Scripts.Fs Open "api_credentials.txt"; Scripts.Fs Open (Scripts.file_path s)])
    | Scripts.Returns f =>
        let c := Scripts.script_call s f (Py.strip (Py.readline credentials)) in
        (Scripts.result_of (Scripts.simple_after (Scripts.post w c)),
         [Scripts.Fs Open "api_credentials.txt"; Scripts.Fs Open (Scripts.file_path s);
          Scripts.Post c] ++ Scripts.trace_of (Scripts.simple_after (Scripts.post w c)))
    end
  end.
Proof.
  unfold Scripts.simple_train_mentor_with_file.
  rewrite (proj1 (script_opening_cases w "api_credentials.txt")).
  destruct (Scripts.opening w "api_credentials.txt") as [credentials|e]; [|reflexivity].
  cbn [Scripts.bind]. rewrite (proj1 (script_opening_cases w (Scripts.file_path s))).
  destruct (Scripts.opening w (Scripts.file_path s)) as [f|e]; [|reflexivity].
  cbn [Scripts.bind]. unfold Scripts.requests_post, Scripts.simple_after, Scripts.script_call.
  cbv zeta. destruct (Scripts.post w _) as [r|e]; [|reflexivity].
  unfold Scripts.Response_json.
  destruct (bool_decide (status_code r = 200) || bool_decide (status_code r = 201)) eqn:Hs;
    cbn; rewrite Hs; [|reflexivity].
  destruct (body_json r) as [[]|]; reflexivity.
Qed.

(** The longer script, by what it finds. *)
Lemma train_cases (s : Scripts.settings) (w : Scripts.world) :
  let found_key := Scripts.Fs Open "api_credentials.txt" :: Scripts.train_announcement s
                   ++ [Scripts.Fs Exists (Scripts.file_path s)] in
  Scripts.train_mentor_with_file s w =
  match Scripts.opening w "api_credentials.txt" with
  | Scripts.Raises (Scripts.FileNotFoundError _) =>
      (Scripts.Raises (Scripts.SystemExit None),
       [Scripts.Fs Open "api_credentials.txt";
        Scripts.Print (Scripts.CROSS_MARK +:+ " Error: api_credentials.txt not found")])
  | Scripts.Raises e => (Scripts.Raises e, [Scripts.Fs Open "api_credentials.txt"])
  | Scripts.Returns credentials =>
    match Scripts.fs w (Scripts.file_path s) with
    | None =>
        (Scripts.Raises (Scripts.SystemExit None),
         found_key
         ++ [Scripts.Print (Scripts.CROSS_MARK +:+ " Error: File not found: "
                            +:+ Scripts.file_path s);
             Scripts.Print ("Current directory: " +:+ Scripts.cwd w)])
    | Some _ =>
      match Scripts.opening w (Scripts.file_path s) with
      | Scripts.Raises e =>
          (Scripts.result_of (Scripts.step_6_except s e),
           found_key ++ [Scripts.Fs Open (Scripts.file_path s)]
           ++ Scripts.trace_of (Scripts.step_6_except s e))
      | Scripts.Returns f =>
          let c := Scripts.script_call s f (Py.strip (Py.readline credentials)) in
          (Scripts.result_of (Scripts.train_after s (Scripts.post w c)),
           found_key ++ [Scripts.Fs Open (Scripts.file_path s); Scripts.Post c]
           ++ Scripts.trace_of (Scripts.train_after s (Scripts.post w c)))
      end
    end
  end.
Proof.
  intros found_key. subst found_key.
  unfold Scripts.train_mentor_with_file, Scripts.train_announcement.
  rewrite (proj1 (script_opening_cases w "api_credentials.txt")).
  destruct (Scripts.opening w "api_credentials.txt") as [credentials|e];
    [|destruct e; reflexivity].
  unfold Scripts.os_path_exists.
  destruct (Scripts.fs w (Scripts.file_path s)) as [nd|] eqn:Hfs.
  - rewrite (bool_decide_eq_true_2 (is_Some (Some nd))) by eauto.
    rewrite (proj1 (script_opening_cases w (Scripts.file_path s))).
    destruct (Scripts.opening w (Scripts.file_path s)) as [f|e].
    + unfold Scripts.requests_post, Scripts.train_after, Scripts.script_call. simpl.
      destruct (Scripts.post w _) as [r|e]; simpl.
      * destruct (Scripts.step_7 r) as [[[]|e] t]; simpl; [reflexivity|].
        destruct (Scripts.step_6_except s e) as [o t']. reflexivity.
      * destruct (Scripts.step_6_except s e) as [o t']. reflexivity.
    + simpl. destruct (Scripts.step_6_except s e) as [o t']. reflexivity.
  - rewrite (bool_decide_eq_false_2 (is_Some None)) by (intros [? ?]; discriminate).
    reflexivity.
Qed.

Lemma script_posts_app (t t' : list Scripts.event) :
  Scripts.posts (t ++ t') = Scripts.posts t ++ Scripts.posts t'.
Proof. apply omap_app. Qed.

Lemma step_7_quiet (r : Response) :
  Scripts.posts (Scripts.trace_of (Scripts.step_7 r)) = []
  ∧ Scripts.fs_calls (Scripts.trace_of (Scripts.step_7 r)) = [].
Proof.
  unfold Scripts.step_7, Scripts.Response_json.
  destruct (bool_decide (status_code r = 200) || bool_decide (status_code r = 201)).
  - destruct (body_json r) as [[]|]; split; reflexivity.
  - repeat (destruct (bool_decide _); [split; reflexivity|]). split; reflexivity.
Qed.

Lemma step_6_except_quiet (s : Scripts.settings) (e : Scripts.exc) :
  Scripts.posts (Scripts.trace_of (Scripts.step_6_except s e)) = []
  ∧ Scripts.fs_calls (Scripts.trace_of (Scripts.step_6_except s e)) = [].
Proof. destruct e; split; reflexivity. Qed.

Lemma step_6_except_result (s : Scripts.settings) (e : Scripts.exc) :
  Scripts.result_of (Scripts.step_6_except s e) =
  if Scripts.is_Exception e then Scripts.Returns tt else Scripts.Raises e.
Proof. destruct e; reflexivity. Qed.

Lemma train_after_cases (s : Scripts.settings) (a : Scripts.answer) :
  Scripts.train_after s a =
  match a with
  | Scripts.Answers r =>
      match Scripts.result_of (Scripts.step_7 r) with
      | Scripts.Returns _ => Scripts.step_7 r
      | Scripts.Raises e =>
          (Scripts.result_of (Scripts.step_6_except s e),
           Scripts.trace_of (Scripts.step_7 r)
           ++ Scripts.trace_of (Scripts.step_6_except s e))
      end
  | Scripts.Fails e => Scripts.step_6_except s e
  end.
Proof.
  unfold Scripts.train_after. destruct a as [r|e]; simpl.
  - destruct (Scripts.step_7 r) as [[[]|e] t]; simpl.
    + reflexivity.
    + destruct (Scripts.step_6_except s e) as [o t']. reflexivity.
  - destruct (Scripts.step_6_except s e) as [o t']. reflexivity.
Qed.

Lemma train_after_quiet (s : Scripts.settings) (a : Scripts.answer) :
  Scripts.posts (Scripts.trace_of (Scripts.train_after s a)) = [].
Proof.
  rewrite train_after_cases. destruct a as [r|e].
  - destruct (Scripts.result_of (Scripts.step_7 r)); cbn [Scripts.trace_of snd].
    + apply step_7_quiet.
    + rewrite script_posts_app, (proj1 (step_7_quiet r)).
      apply step_6_except_quiet.
  - apply step_6_except_quiet.
Qed.

Lemma simple_after_quiet (a : Scripts.answer) :
  Scripts.posts (Scripts.trace_of (Scripts.simple_after a)) = [].
Proof.
  unfold Scripts.simple_after, Scripts.Response_json. destruct a as [r|e]; [|reflexivity].
  simpl. destruct (bool_decide _ || bool_decide _); [|reflexivity].
  destruct (body_json r) as [[]|]; reflexivity.
Qed.




Lemma script_fs_calls_app (t t' : list Scripts.event) :
  Scripts.fs_calls (t ++ t') = Scripts.fs_calls t ++ Scripts.fs_calls t'.
Proof. apply omap_app. Qed.



Lemma train_after_result (s : Scripts.settings) (a : Scripts.answer) :
  (∀ e, Scripts.result_of (Scripts.train_after s a) = Scripts.Raises e →
        Scripts.is_Exception e = false ∧ a = Scripts.Fails e)
  ∧ ((∀ e, a = Scripts.Fails e → Scripts.is_Exception e = true) →
     Scripts.result_of (Scripts.train_after s a) = Scripts.Returns tt).
Proof.
  rewrite train_after_cases. destruct a as [r|e0].
  - assert (Hok : match Scripts.result_of (Scripts.step_7 r) with
                  | Scripts.Returns _ => True
                  | Scripts.Raises e => Scripts.is_Exception e = true
                  end).
    { unfold Scripts.step_7, Scripts.Response_json.
      destruct (bool_decide (status_code r = 200) || bool_decide (status_code r = 201)).
      - destruct (body_json r) as [[]|]; exact I || reflexivity.
      - repeat (destruct (bool_decide _); [exact I|]). exact I. }
    destruct (Scripts.result_of (Scripts.step_7 r)) as [[]|e] eqn:Hres.
    + split; [intros e He; congruence|]. intros _. exact Hres.
    + cbn [Scripts.result_of fst]. rewrite step_6_except_result, Hok.
      split; [discriminate|reflexivity].
  - rewrite step_6_except_result. split.
    + intros e. destruct (Scripts.is_Exception e0) eqn:He0; [discriminate|].
      intros [= <-]. done.
    + intros H. by rewrite (H e0 eq_refl).
Qed.



Lemma script_opening_returns (w : Scripts.world) (path f : string) :
  Scripts.opening w path = Scripts.Returns f →
  ∃ nd, Scripts.opens w path nd ∧ f = content nd.
Proof.
  intros H. pose proof (proj2 (script_opening_cases w path)) as Hcases.
  destruct (Scripts.fs w path) as [nd|].
  - destruct Hcases as [[Ho Hr] | [_ [msg [Hr | Hr]]]]; rewrite Hr in H;
      try discriminate. injection H as <-. eauto.
  - destruct Hcases as [msg Hr]. rewrite Hr in H. discriminate.
Qed.

Lemma simple_after_returns (a : Scripts.answer) :
  Scripts.result_of (Scripts.simple_after a) = Scripts.Returns tt
  ↔ ∃ resp, a = Scripts.Answers resp
      ∧ (status_code resp = 200 ∨ status_code resp = 201 →
         ∃ items, body_json resp = JsonOk (JObj items)).
Proof.
  unfold Scripts.simple_after, Scripts.Response_json. destruct a as [r|e]; simpl.
  2: { split; [discriminate|]. intros (resp & ? & _); discriminate. }
  destruct (bool_decide (status_code r = 200) || bool_decide (status_code r = 201)) eqn:Hs.
  - assert (Hst : status_code r = 200 ∨ status_code r = 201).
    { apply orb_true_iff in Hs as [H|H]; apply bool_decide_eq_true in H; auto. }
    destruct (body_json r) as [[]|] eqn:Hbody; simpl;
      (split;
       [first [discriminate | intros _; exists r; split; [reflexivity|eauto]]
       |intros (resp & [= <-] & Hitems); destruct (Hitems Hst) as [items' Hi];
        rewrite Hbody in Hi; first [discriminate Hi | reflexivity]]).
  - assert (Hst : ¬ (status_code r = 200 ∨ status_code r = 201)).
    { apply orb_false_iff in Hs as [H1 H2].
      apply bool_decide_eq_false in H1, H2. tauto. }
    split; [|reflexivity]. intros _. exists r. split; [reflexivity|tauto].
Qed.




(** * The [--verbose] flag *)

